(** * FocusCoinEngine (background.js): coin accrual, site blocking and
      heartbeat synchronisation

    A shallow embedding of the [FocusCoinEngine] class of [background.js].
    JavaScript numbers are modelled by [Z] (every quantity the engine handles
    is an integer far below 2^53), strings by [string], arrays by [list].
    The engine object and [chrome.storage.local] form the state; calls that
    leave the extension ([chrome.storage.local.set], [chrome.tabs.update],
    [fetch], [chrome.runtime.sendMessage]) are recorded in a trace of events.
    What the browser and the network answer (the active tab, the URL parser,
    the clock, the outcome of a [fetch]) is an explicit input of each handler.
    Every handler is run to completion before the next one starts;
    [chrome.storage.local] and [chrome.tabs.query] are taken not to throw.
    The handlers [updateCoins] to [stopSession] take the answer to the
    heartbeat POST they may send as an input and so stand for a run in
    which that answer arrives before the next handler; the part on flushes
    in flight delivers the answers as events of their own. *)

From Stdlib Require Import ZArith List String Ascii Bool Lia.
From Stdlib Require Import Sorted.
Import ListNotations.

Local Open Scope Z_scope.

(** ** JavaScript primitives used by the engine *)

Module JS.

(** [s.startsWith(p)]; used to define the search functions below. *)
Fixpoint startsWith (p s : string) : bool :=
  match p, s with
  | EmptyString, _ => true
  | String _ _, EmptyString => false
  | String a p', String b s' => Ascii.eqb a b && startsWith p' s'
  end.

(** The string without its first [n] characters. *)
Fixpoint drop (n : nat) (s : string) : string :=
  match n, s with
  | O, _ => s
  | S _, EmptyString => EmptyString
  | S n', String _ s' => drop n' s'
  end.

(** [s.includes(sub)]: [sub] occurs somewhere in [s]. *)
Fixpoint includes (s sub : string) : bool :=
  if startsWith sub s then true
  else match s with
       | EmptyString => false
       | String _ s' => includes s' sub
       end.

(** [s.replace(pat, rep)] with a string pattern: only the first
    occurrence of [pat], wherever it is, is replaced. *)
Fixpoint replace (s pat rep : string) : string :=
  if startsWith pat s then (rep ++ drop (String.length pat) s)%string
  else match s with
       | EmptyString => EmptyString
       | String c s' => String c (replace s' pat rep)
       end.

(** [x || 0] for a number that may be [undefined]. *)
Definition or0 (x : option Z) : Z :=
  match x with
  | Some v => v
  | None => 0
  end.

(** [Math.max(a, b)] and [Math.floor(a / b)] on integers, [b] non-zero. *)
Definition max (a b : Z) : Z := Z.max a b.
Definition floor_div (a b : Z) : Z := a / b.

End JS.

(** [sub] is an unanchored substring of [s]. *)
Definition substring_of (sub s : string) : Prop :=
  exists pre post : string, s = (pre ++ sub ++ post)%string.

(** ** Data *)

Inductive SiteType := productive | distracting | neutral.

Inductive Action := focus | distract.

(** A tab as [chrome.tabs.query] returns it; [url] may be missing. *)
Record Tab := mkTab {
  tab_id : Z;
  tab_url : option string
}.

(** The object [updateCoins] hands to [addHeartbeat]. *)
Record HeartbeatData := mkData {
  timestamp : Z;
  site : string;
  siteType : SiteType;
  action : Action;
  coinsChange : Z;
  tabId : Z;
  url : string
}.

(** A buffered record: the data spread, plus the engine's [sessionId]. *)
Record Heartbeat := mkHeartbeat {
  data : HeartbeatData;
  hb_sessionId : option string
}.

(** The fields of [this]. [updateTimer] only records whether a timer is
    set. *)
Record Engine := mkEngine {
  isSessionActive : bool;
  currentTabId : option Z;
  lastUpdateTime : Z;
  coinUpdateInterval : Z;
  updateTimer : bool;
  sessionId : option string;
  uuid : option string;
  heartbeatBuffer : list Heartbeat;
  maxBufferSize : Z;
  productiveSites : list string;
  distractingSites : list string
}.

(** The keys of [chrome.storage.local] that the engine writes. *)
Record Storage := mkStorage {
  focusCoins : option Z;
  todayCoins : option Z;
  sessionActive : option bool;
  sessionStartTime : option Z
}.

Record State := mkState {
  eng : Engine;
  store : Storage
}.

(** What [apiCall] gives back: [fetch] or [response.json()] threw, or a JSON
    body whose [success] field is truthy or not. *)
Inductive ApiResult :=
| NetworkError
| Json (success : bool).

Definition confirmed (r : ApiResult) : bool :=
  match r with
  | Json true => true
  | _ => false
  end.

(** Calls that leave the extension. *)
Inductive Event :=
| StorageSetCoins (focus today : Z)
| StorageSetSession (active : bool) (start : option Z)
| TabsUpdate (tab : Z) (domain : string)
| PostHeartbeats (id : option string) (batch : list Heartbeat)
| PostSessionStart (id : option string) (session : option string) (time : Z)
| PostSessionStop (id : option string) (session : option string)
| CoinsUpdated (coins change : Z) (type : SiteType) (domain : string).

(** What the outside world answers during one run of [updateCoins]:
    the result of [chrome.tabs.query], the [hostname] of [new URL(u)]
    ([None] when the constructor throws), [Date.now()], and the outcome of
    the heartbeat POST should one be sent. *)
Record Env := mkEnv {
  active_tab : option Tab;
  url_hostname : string -> option string;
  date_now : Z;
  fetch_result : ApiResult
}.

(** Field updates of the engine object. *)
Definition set_heartbeatBuffer (e : Engine) (b : list Heartbeat) : Engine :=
  mkEngine (isSessionActive e) (currentTabId e) (lastUpdateTime e)
    (coinUpdateInterval e) (updateTimer e) (sessionId e) (uuid e) b
    (maxBufferSize e) (productiveSites e) (distractingSites e).

Definition set_lastUpdateTime (e : Engine) (t : Z) : Engine :=
  mkEngine (isSessionActive e) (currentTabId e) t
    (coinUpdateInterval e) (updateTimer e) (sessionId e) (uuid e)
    (heartbeatBuffer e) (maxBufferSize e) (productiveSites e)
    (distractingSites e).

Definition set_isSessionActive (e : Engine) (b : bool) : Engine :=
  mkEngine b (currentTabId e) (lastUpdateTime e)
    (coinUpdateInterval e) (updateTimer e) (sessionId e) (uuid e)
    (heartbeatBuffer e) (maxBufferSize e) (productiveSites e)
    (distractingSites e).

Definition set_updateTimer (e : Engine) (b : bool) : Engine :=
  mkEngine (isSessionActive e) (currentTabId e) (lastUpdateTime e)
    (coinUpdateInterval e) b (sessionId e) (uuid e)
    (heartbeatBuffer e) (maxBufferSize e) (productiveSites e)
    (distractingSites e).

Definition set_sessionId (e : Engine) (i : option string) : Engine :=
  mkEngine (isSessionActive e) (currentTabId e) (lastUpdateTime e)
    (coinUpdateInterval e) (updateTimer e) i (uuid e)
    (heartbeatBuffer e) (maxBufferSize e) (productiveSites e)
    (distractingSites e).

Definition set_currentTabId (e : Engine) (i : option Z) : Engine :=
  mkEngine (isSessionActive e) i (lastUpdateTime e)
    (coinUpdateInterval e) (updateTimer e) (sessionId e) (uuid e)
    (heartbeatBuffer e) (maxBufferSize e) (productiveSites e)
    (distractingSites e).

Definition set_coins (st : Storage) (f t : Z) : Storage :=
  mkStorage (Some f) (Some t) (sessionActive st) (sessionStartTime st).

Definition set_session (st : Storage) (a : bool) (t : option Z) : Storage :=
  mkStorage (focusCoins st) (todayCoins st) (Some a) t.

(** ** The engine *)

(** The state the constructor builds, given the clock. *)
Definition constructor (now : Z) : Engine :=
  {| isSessionActive := false;
     currentTabId := None;
     lastUpdateTime := now;
     coinUpdateInterval := 5000;
     updateTimer := false;
     sessionId := None;
     uuid := None;
     heartbeatBuffer := [];
     maxBufferSize := 10;
     productiveSites :=
       ["github.com"; "stackoverflow.com"; "wikipedia.org"; "leetcode.com";
        "coursera.org"; "udemy.com"; "edx.org"; "khanacademy.org";
        "developer.mozilla.org"; "w3schools.com"; "freecodecamp.org"]%string;
     distractingSites :=
       ["youtube.com"; "instagram.com"; "twitter.com"; "facebook.com";
        "reddit.com"; "tiktok.com"; "netflix.com"; "twitch.tv";
        "discord.com"; "whatsapp.com"]%string |}.

(** [getSiteType(domain)]. *)
Definition getSiteType (e : Engine) (domain : string) : SiteType :=
  if existsb (fun s => JS.includes domain s) (productiveSites e)
  then productive
  else if existsb (fun s => JS.includes domain s) (distractingSites e)
  then distracting
  else neutral.

(** [syncHeartbeats()]: nothing is sent for an empty buffer; otherwise the
    whole buffer is posted and cleared only when [response.success] is
    truthy. A thrown error is caught and the buffer kept. *)
Definition syncHeartbeats (r : ApiResult) (e : Engine)
  : Engine * list Event :=
  match heartbeatBuffer e with
  | [] => (e, [])
  | _ :: _ =>
      (if confirmed r then set_heartbeatBuffer e [] else e,
       [PostHeartbeats (uuid e) (heartbeatBuffer e)])
  end.

(** [addHeartbeat(data)]: push, then sync when the buffer is full. The
    sync is not awaited; here its answer [r] is taken to arrive before
    anything else runs ([astep] below does without that). *)
Definition addHeartbeat (d : HeartbeatData) (r : ApiResult) (e : Engine)
  : Engine * list Event :=
  let e1 :=
    set_heartbeatBuffer e (heartbeatBuffer e ++ [mkHeartbeat d (sessionId e)]) in
  if Z.of_nat (List.length (heartbeatBuffer e1)) >=? maxBufferSize e1
  then syncHeartbeats r e1
  else (e1, []).

(** The first half of [updateCoins]: the active tab with a non-empty URL,
    [url.hostname.replace('www.', '')] and its site type. [None] where
    [updateCoins] returns before classifying or [new URL] throws. *)
Definition normalize (hostname : string) : string :=
  JS.replace hostname "www." "".

Definition observe (w : Env) (e : Engine)
  : option (Tab * string * string * SiteType) :=
  match active_tab w with
  | None => None
  | Some tab =>
      match tab_url tab with
      | None => None
      | Some u =>
          if String.eqb u "" then None
          else match url_hostname w u with
               | None => None
               | Some hostname =>
                   let domain := normalize hostname in
                   Some (tab, u, domain, getSiteType e domain)
               end
      end
  end.

Definition intervalsElapsed (w : Env) (e : Engine) : Z :=
  JS.floor_div (date_now w - lastUpdateTime e) (coinUpdateInterval e).

Definition balance (s : State) : Z := JS.or0 (focusCoins (store s)).
Definition earnedToday (s : State) : Z := JS.or0 (todayCoins (store s)).

(** [blockSite(tab, domain)]: a failing [chrome.tabs.update] is logged and
    swallowed, so the call is all there is to record. *)
Definition blockSite (tab : Tab) (domain : string) : list Event :=
  [TabsUpdate (tab_id tab) domain].

(** The steps of [updateCoins] after the coin arithmetic, shared by the
    productive and the distracting branch: save, buffer the heartbeat,
    notify the popup, advance [lastUpdateTime]. *)
Definition commit (w : Env) (s : State) (tab : Tab) (u domain : string)
    (ty : SiteType) (currentCoins today coinChange : Z)
  : State * list Event :=
  let d :=
    {| timestamp := date_now w;
       site := domain;
       siteType := ty;
       action := match ty with productive => focus | _ => distract end;
       coinsChange := coinChange;
       tabId := tab_id tab;
       url := u |} in
  let '(e1, sent) := addHeartbeat d (fetch_result w) (eng s) in
  ({| eng := set_lastUpdateTime e1 (date_now w);
      store := set_coins (store s) currentCoins today |},
   [StorageSetCoins currentCoins today] ++ sent
   ++ [CoinsUpdated currentCoins coinChange ty domain]).

(** [updateCoins()]. *)
Definition updateCoins (w : Env) (s : State) : State * list Event :=
  if negb (isSessionActive (eng s)) then (s, [])
  else
    match observe w (eng s) with
    | None => (s, [])
    | Some (tab, u, domain, ty) =>
        match ty with
        | neutral => (s, [])
        | _ =>
            let currentCoins := balance s in
            let today := earnedToday s in
            let n := intervalsElapsed w (eng s) in
            if 0 <? n then
              match ty with
              | productive =>
                  let coinChange := n * 3 in
                  commit w s tab u domain ty
                    (currentCoins + coinChange) (today + coinChange) coinChange
              | distracting =>
                  let coinChange := n * -4 in
                  if 0 <? currentCoins then
                    commit w s tab u domain ty
                      (JS.max 0 (currentCoins + coinChange)) today coinChange
                  else (s, blockSite tab domain)
              | neutral => commit w s tab u domain ty currentCoins today 0
              end
            else (s, [])
        end
    end.

(** [handleTabChange()]: restarts the interval at its own [Date.now()]
    before it evaluates. *)
Definition handleTabChange (t : Z) (w : Env) (s : State)
  : State * list Event :=
  if negb (isSessionActive (eng s)) then (s, [])
  else updateCoins w {| eng := set_lastUpdateTime (eng s) t; store := store s |}.

(** [startMonitoring()]: one evaluation at once, then the interval timer. *)
Definition startMonitoring (w : Env) (s : State) : State * list Event :=
  let '(s1, evs) := updateCoins w s in
  ({| eng := set_updateTimer (eng s1) true; store := store s1 |}, evs).

(** [startSession()]; [sid] is the fresh [crypto.randomUUID()], [t] the
    clock. When the start notification throws, monitoring is not started. *)
Definition startSession (sid : string) (t : Z) (r : ApiResult) (w : Env)
    (s : State) : State * list Event :=
  let e1 :=
    set_lastUpdateTime
      (set_sessionId (set_isSessionActive (eng s) true) (Some sid)) t in
  let s1 := {| eng := e1; store := set_session (store s) true (Some t) |} in
  let evs :=
    [StorageSetSession true (Some t); PostSessionStart (uuid e1) (Some sid) t] in
  match r with
  | NetworkError => (s1, evs)
  | Json _ =>
      let '(s2, evs2) := startMonitoring w s1 in
      (s2, evs ++ evs2)
  end.

(** [stopSession()]; [rsync] answers the final sync, [rstop] the stop
    notification. When the latter throws, the rest is skipped. *)
Definition stopSession (rsync rstop : ApiResult) (s : State)
  : State * list Event :=
  let e1 := set_updateTimer (set_isSessionActive (eng s) false) false in
  let '(e2, sent) := syncHeartbeats rsync e1 in
  let evs := sent ++ [PostSessionStop (uuid e2) (sessionId e2)] in
  match rstop with
  | NetworkError => ({| eng := e2; store := store s |}, evs)
  | Json _ =>
      ({| eng := set_sessionId e2 None;
          store := set_session (store s) false None |},
       evs ++ [StorageSetSession false None])
  end.

(** The [chrome.tabs.onActivated] listener of [setupListeners]. *)
Definition onActivated (id : Z) (t : Z) (w : Env) (s : State)
  : State * list Event :=
  handleTabChange t w
    {| eng := set_currentTabId (eng s) (Some id); store := store s |}.

(** The [chrome.tabs.onUpdated] listener; [has_url] tells whether
    [changeInfo.url] is set. *)
Definition onUpdated (id : Z) (has_url : bool) (t : Z) (w : Env) (s : State)
  : State * list Event :=
  if match currentTabId (eng s) with
     | Some c => Z.eqb id c
     | None => false
     end && has_url
  then handleTabChange t w s
  else (s, []).

(** The handlers the browser can invoke on the engine: the interval timer
    of [startMonitoring], the two tab listeners, the periodic sync timer of
    [initialize], and the two session messages. *)
Inductive Op :=
| Tick (w : Env)
| TabActivated (id : Z) (t : Z) (w : Env)
| TabUpdated (id : Z) (has_url : bool) (t : Z) (w : Env)
| PeriodicSync (r : ApiResult)
| StartSession (sid : string) (t : Z) (r : ApiResult) (w : Env)
| StopSession (rsync rstop : ApiResult).

Definition step (o : Op) (s : State) : State * list Event :=
  match o with
  | Tick w => updateCoins w s
  | TabActivated id t w => onActivated id t w s
  | TabUpdated id has_url t w => onUpdated id has_url t w s
  | PeriodicSync r =>
      let '(e1, evs) := syncHeartbeats r (eng s) in
      ({| eng := e1; store := store s |}, evs)
  | StartSession sid t r w => startSession sid t r w s
  | StopSession rsync rstop => stopSession rsync rstop s
  end.

Fixpoint run (ops : list Op) (s : State) : State * list Event :=
  match ops with
  | [] => (s, [])
  | o :: ops' =>
      let '(s1, evs1) := step o s in
      let '(s2, evs2) := run ops' s1 in
      (s2, evs1 ++ evs2)
  end.

(** Every heartbeat POST an operation may send is answered with success. *)
Definition sync_confirmed (o : Op) : bool :=
  match o with
  | Tick w => confirmed (fetch_result w)
  | TabActivated _ _ w => confirmed (fetch_result w)
  | TabUpdated _ _ _ w => confirmed (fetch_result w)
  | PeriodicSync r => confirmed r
  | StartSession _ _ _ w => confirmed (fetch_result w)
  | StopSession rsync _ => confirmed rsync
  end.

(** The heartbeat POSTs in a trace. *)
Definition is_post (ev : Event) : bool :=
  match ev with
  | PostHeartbeats _ _ => true
  | _ => false
  end.

Definition is_block (ev : Event) : bool :=
  match ev with
  | TabsUpdate _ _ => true
  | _ => false
  end.

Definition flush_attempts (evs : list Event) : nat :=
  List.length (filter is_post evs).

Definition buffer_length (s : State) : Z :=
  Z.of_nat (List.length (heartbeatBuffer (eng s))).

(** The hostname with a leading [www.] removed and nothing else touched:
    what the normalisation is described to do. *)
Definition strip_www_prefix (hostname : string) : string :=
  if JS.startsWith "www." hostname then JS.drop 4 hostname else hostname.

(** ** Notions used in the statements *)

(** The four ways [updateCoins] can end. *)
Inductive Outcome (w : Env) (s : State) : State * list Event -> Prop :=
| Idle : Outcome w s (s, [])
| Blocked tab u domain :
    observe w (eng s) = Some (tab, u, domain, distracting) ->
    0 < intervalsElapsed w (eng s) ->
    balance s <= 0 ->
    Outcome w s (s, blockSite tab domain)
| Earned tab u domain :
    observe w (eng s) = Some (tab, u, domain, productive) ->
    0 < intervalsElapsed w (eng s) ->
    Outcome w s
      (commit w s tab u domain productive
         (balance s + intervalsElapsed w (eng s) * 3)
         (earnedToday s + intervalsElapsed w (eng s) * 3)
         (intervalsElapsed w (eng s) * 3))
| Spent tab u domain :
    observe w (eng s) = Some (tab, u, domain, distracting) ->
    0 < intervalsElapsed w (eng s) ->
    0 < balance s ->
    Outcome w s
      (commit w s tab u domain distracting
         (JS.max 0 (balance s + intervalsElapsed w (eng s) * -4))
         (earnedToday s)
         (intervalsElapsed w (eng s) * -4)).

(** The heartbeat [commit] builds and the buffer right after the push. *)
Definition heartbeat_of (w : Env) (e : Engine) (tab : Tab) (u domain : string)
    (ty : SiteType) (coinChange : Z) : Heartbeat :=
  mkHeartbeat
    (mkData (date_now w) domain ty
       (match ty with productive => focus | _ => distract end)
       coinChange (tab_id tab) u)
    (sessionId e).

Definition is_full (e : Engine) (b : list Heartbeat) : bool :=
  maxBufferSize e <=? Z.of_nat (List.length b).

Definition config_eq (e e' : Engine) : Prop :=
  coinUpdateInterval e' = coinUpdateInterval e
  /\ maxBufferSize e' = maxBufferSize e
  /\ productiveSites e' = productiveSites e
  /\ distractingSites e' = distractingSites e.

(** The sum the backend computes over a batch
    ([heartbeats.reduce((sum, hb) => sum + (hb.coinsChange || 0), 0)]). *)
Definition totalCoinsChange (l : list Heartbeat) : Z :=
  fold_left (fun sum hb => sum + coinsChange (data hb)) l 0.

(** The outcome described for the scenario "balance 2, one distracting
    interval": balance 0, no heartbeat buffered, and the tab sent to the
    blocking page of the classified domain. *)
Definition clamps_and_blocks (w : Env) (s : State) : Prop :=
  balance (fst (updateCoins w s)) = 0
  /\ heartbeatBuffer (eng (fst (updateCoins w s))) = heartbeatBuffer (eng s)
  /\ exists tab u domain ty,
       observe w (eng s) = Some (tab, u, domain, ty)
       /\ In (TabsUpdate (tab_id tab) domain) (snd (updateCoins w s)).

(** The buffer holds at most [maxBufferSize] records. *)
Definition within_maxBufferSize (s : State) : Prop :=
  buffer_length s <= maxBufferSize (eng s).

(** ** Sample inputs *)

(** The host of a URL of the shape [https://host/path]; it stands for the
    browser's URL parser on the sample URLs below. *)
Fixpoint until_slash (s : string) : string :=
  match s with
  | EmptyString => EmptyString
  | String c s' =>
      if Ascii.eqb c "/" then EmptyString else String c (until_slash s')
  end.

Definition https_hostname (u : string) : option string :=
  if JS.startsWith "https://" u then Some (until_slash (JS.drop 8 u))
  else None.

(** The active tab shows [u] at time [t]; a heartbeat POST is answered [r]. *)
Definition visiting (u : string) (t : Z) (r : ApiResult) : Env :=
  {| active_tab := Some (mkTab 7 (Some u));
     url_hostname := https_hostname;
     date_now := t;
     fetch_result := r |}.

(** A session started at time 0 with [coins] coins and an empty buffer. *)
Definition monitoring (coins : Z) : State :=
  {| eng :=
       set_updateTimer
         (set_sessionId (set_isSessionActive (constructor 0) true)
            (Some "session-1"%string))
         true;
     store := mkStorage (Some coins) (Some 0) (Some true) (Some 0) |}.

(** Eleven productive ticks, five seconds apart, while the backend is
    unreachable. *)
Definition offline_ticks : list Op :=
  map (fun k => Tick (visiting "https://github.com/" (5000 * Z.of_nat k)
                        NetworkError))
      (seq 1 11).

(** ** Start-up *)

Definition set_uuid (e : Engine) (u : option string) : Engine :=
  mkEngine (isSessionActive e) (currentTabId e) (lastUpdateTime e)
    (coinUpdateInterval e) (updateTimer e) (sessionId e) u
    (heartbeatBuffer e) (maxBufferSize e) (productiveSites e)
    (distractingSites e).

(** [!x] for a string that may be [undefined]. *)
Definition falsy_string (x : option string) : bool :=
  match x with
  | None => true
  | Some v => String.eqb v ""
  end.

(** [ensureUUID()]: [stored] is the [focus_uuid] key of the storage,
    [fresh] what [crypto.randomUUID()] would give. The result is [this.uuid]
    and the key afterwards. *)
Definition ensureUUID (fresh : string) (stored : option string)
  : option string * option string :=
  if falsy_string stored then (Some fresh, Some fresh)
  else (stored, stored).

(** The storage writes of the start-up, beside the calls the engine makes
    once it monitors. [StorageSeed] is the write of [focusCoins],
    [todayCoins], [focusStreak] and [sessionActive] (and of
    [lastActiveDate], the day as text). *)
Inductive StartupCall :=
| StorageSetUuid (id : string)
| StorageSeed (coins today streak : Z) (active : bool)
| EngineCall (ev : Event).

(** [initialize()], run on the engine the constructor built; of the keys
    the seeding writes, [focusStreak] and [lastActiveDate] are not among
    those tracked by [Storage]. The result carries the [focus_uuid] key as
    well. *)
Definition initialize (fresh : string) (stored : option string) (w : Env)
    (s : State) : State * option string * list StartupCall :=
  let '(u, stored') := ensureUUID fresh stored in
  let uuid_calls :=
    if falsy_string stored then [StorageSetUuid fresh] else [] in
  let st1 :=
    match focusCoins (store s) with
    | None => mkStorage (Some 10) (Some 0) (Some false)
                (sessionStartTime (store s))
    | Some _ => store s
    end in
  let seed_calls :=
    match focusCoins (store s) with
    | None => [StorageSeed 10 0 0 false]
    | Some _ => []
    end in
  let active :=
    match sessionActive (store s) with
    | Some b => b
    | None => false
    end in
  let s1 :=
    {| eng := set_isSessionActive (set_uuid (eng s) u) active;
       store := st1 |} in
  if active then
    let '(s2, evs) := startMonitoring w s1 in
    (s2, stored', uuid_calls ++ seed_calls ++ map EngineCall evs)
  else (s1, stored', uuid_calls ++ seed_calls).

(** ** Notions used in the further statements *)

(** The operation is the interval timer or one of the two tab listeners. *)
Definition is_browsing (o : Op) : bool :=
  match o with
  | Tick _ | TabActivated _ _ _ | TabUpdated _ _ _ _ => true
  | _ => false
  end.

Definition is_start (o : Op) : bool :=
  match o with
  | StartSession _ _ _ _ => true
  | _ => false
  end.

(** The shape of a record [updateCoins] can buffer. *)
Definition well_formed (hb : Heartbeat) : Prop :=
  let d := data hb in
  (siteType d = productive /\ action d = focus
   /\ exists n, 0 < n /\ coinsChange d = n * 3)
  \/ (siteType d = distracting /\ action d = distract
      /\ exists n, 0 < n /\ coinsChange d = n * -4).

(** The batches posted in a trace. *)
Fixpoint posted (evs : list Event) : list (list Heartbeat) :=
  match evs with
  | [] => []
  | PostHeartbeats _ batch :: evs' => batch :: posted evs'
  | _ :: evs' => posted evs'
  end.

(** The sum of the [change] fields of the [coinsUpdated] messages. *)
Fixpoint announced_change (evs : list Event) : Z :=
  match evs with
  | [] => 0
  | CoinsUpdated _ change _ _ :: evs' => change + announced_change evs'
  | _ :: evs' => announced_change evs'
  end.

(** The [coins] field of the last [coinsUpdated] message, if there is one. *)
Fixpoint last_announced (evs : list Event) : option Z :=
  match evs with
  | [] => None
  | CoinsUpdated coins _ _ _ :: evs' =>
      match last_announced evs' with
      | Some c => Some c
      | None => Some coins
      end
  | _ :: evs' => last_announced evs'
  end.

(** The answer to the heartbeat POST an operation may send. *)
Definition sync_result (o : Op) : ApiResult :=
  match o with
  | Tick w => fetch_result w
  | TabActivated _ _ w => fetch_result w
  | TabUpdated _ _ _ w => fetch_result w
  | PeriodicSync r => r
  | StartSession _ _ _ w => fetch_result w
  | StopSession rsync _ => rsync
  end.

Definition is_session_event (ev : Event) : bool :=
  match ev with
  | StorageSetSession _ _ | PostSessionStart _ _ _ | PostSessionStop _ _ => true
  | _ => false
  end.

(** A change of the state that touches neither the configuration, the
    [uuid], the heartbeat buffer nor the coins. *)
Definition bookkeeping (s s' : State) : Prop :=
  config_eq (eng s) (eng s')
  /\ heartbeatBuffer (eng s') = heartbeatBuffer (eng s)
  /\ uuid (eng s') = uuid (eng s)
  /\ focusCoins (store s') = focusCoins (store s)
  /\ todayCoins (store s') = todayCoins (store s).

(** Every handler is a sequence of three kinds of moves: an evaluation, a
    flush, or bookkeeping that only makes session calls. [allowed] restricts
    the answers to the heartbeat POSTs. *)
Inductive Move (allowed : ApiResult -> Prop)
  : State -> State -> list Event -> Prop :=
| MoveEval w s :
    allowed (fetch_result w) ->
    Move allowed s (fst (updateCoins w s)) (snd (updateCoins w s))
| MoveSync r s :
    allowed r ->
    Move allowed s
      {| eng := fst (syncHeartbeats r (eng s)); store := store s |}
      (snd (syncHeartbeats r (eng s)))
| MoveBook s s' evs :
    bookkeeping s s' ->
    forallb is_session_event evs = true ->
    Move allowed s s' evs.

Inductive Moves (allowed : ApiResult -> Prop)
  : State -> State -> list Event -> Prop :=
| MovesDone s : Moves allowed s s []
| MovesNext s1 s2 s3 e1 e2 :
    Move allowed s1 s2 e1 ->
    Moves allowed s2 s3 e2 ->
    Moves allowed s1 s3 (e1 ++ e2).

(** ** Flushes in flight *)

(** [syncHeartbeats()] up to its [await]: the POST of the whole buffer, if
    there is one to send. The engine is not touched. *)
Definition sendHeartbeats (e : Engine) : list Event :=
  match heartbeatBuffer e with
  | [] => []
  | _ :: _ => [PostHeartbeats (uuid e) (heartbeatBuffer e)]
  end.

(** [syncHeartbeats()] after its [await]: on success the buffer, whatever
    it holds by then, is replaced by the empty array. *)
Definition receiveAnswer (r : ApiResult) (e : Engine) : Engine :=
  if confirmed r then set_heartbeatBuffer e [] else e.

(** The world of a handler whose heartbeat POST is not answered while it
    runs. As [syncHeartbeats] changes the engine only on success, the
    handler then does what it does up to the answer. *)
Definition withhold (w : Env) : Env :=
  {| active_tab := active_tab w;
     url_hostname := url_hostname w;
     date_now := date_now w;
     fetch_result := NetworkError |}.

(** [stopSession()] up to the answer to its final flush, and from there. *)
Definition stopSession_begin (s : State) : State * list Event :=
  let e1 := set_updateTimer (set_isSessionActive (eng s) false) false in
  ({| eng := e1; store := store s |}, sendHeartbeats e1).

Definition stopSession_end (rstop : ApiResult) (s : State)
  : State * list Event :=
  let evs := [PostSessionStop (uuid (eng s)) (sessionId (eng s))] in
  match rstop with
  | NetworkError => (s, evs)
  | Json _ =>
      ({| eng := set_sessionId (eng s) None;
          store := set_session (store s) false None |},
       evs ++ [StorageSetSession false None])
  end.

(** The state with the number of heartbeat POSTs not answered yet. *)
Record AState := mkAState {
  current : State;
  pending : nat
}.

(** The handlers up to the answers to their heartbeat POSTs, and the
    arrival of an answer. *)
Inductive AOp :=
| ATick (w : Env)
| ATabActivated (id : Z) (t : Z) (w : Env)
| ATabUpdated (id : Z) (has_url : bool) (t : Z) (w : Env)
| APeriodicSync
| AStartSession (sid : string) (t : Z) (r : ApiResult) (w : Env)
| AStopBegin
| AStopEnd (rstop : ApiResult)
| AAnswer (r : ApiResult).

Definition is_answer (o : AOp) : bool :=
  match o with
  | AAnswer _ => true
  | _ => false
  end.

Definition handler (o : AOp) (s : State) : State * list Event :=
  match o with
  | ATick w => updateCoins (withhold w) s
  | ATabActivated id t w => onActivated id t (withhold w) s
  | ATabUpdated id has_url t w => onUpdated id has_url t (withhold w) s
  | APeriodicSync => (s, sendHeartbeats (eng s))
  | AStartSession sid t r w => startSession sid t r (withhold w) s
  | AStopBegin => stopSession_begin s
  | AStopEnd rstop => stopSession_end rstop s
  | AAnswer _ => (s, [])
  end.

Definition astep (o : AOp) (a : AState) : AState * list Event :=
  match o with
  | AAnswer r =>
      match pending a with
      | O => (a, [])
      | S n =>
          ({| current := {| eng := receiveAnswer r (eng (current a));
                            store := store (current a) |};
              pending := n |}, [])
      end
  | _ =>
      let '(s', evs) := handler o (current a) in
      ({| current := s';
          pending := pending a + List.length (posted evs) |}, evs)
  end.

Fixpoint arun (ops : list AOp) (a : AState) : AState * list Event :=
  match ops with
  | [] => (a, [])
  | o :: ops' =>
      let '(a1, evs1) := astep o a in
      let '(a2, evs2) := arun ops' a1 in
      (a2, evs1 ++ evs2)
  end.

(** No handler runs while a heartbeat POST is in flight: every answer
    arrives before the next handler. *)
Fixpoint prompt (ops : list AOp) (a : AState) : bool :=
  match ops with
  | [] => true
  | o :: ops' =>
      (is_answer o || Nat.eqb (pending a) 0)
      && prompt ops' (fst (astep o a))
  end.

Definition answer_confirmed (o : AOp) : bool :=
  match o with
  | AAnswer r => confirmed r
  | _ => true
  end.

(** A handler of the first part as a handler followed at once by the
    answer to its POST. *)
Definition schedule (o : Op) : list AOp :=
  match o with
  | Tick w => [ATick w; AAnswer (fetch_result w)]
  | TabActivated id t w => [ATabActivated id t w; AAnswer (fetch_result w)]
  | TabUpdated id has_url t w =>
      [ATabUpdated id has_url t w; AAnswer (fetch_result w)]
  | PeriodicSync r => [APeriodicSync; AAnswer r]
  | StartSession sid t r w =>
      [AStartSession sid t r w; AAnswer (fetch_result w)]
  | StopSession rsync rstop => [AStopBegin; AAnswer rsync; AStopEnd rstop]
  end.

(** What a handler has done once the answer to the POST it sent, if any,
    has arrived. *)
Definition answered (r : ApiResult) (p : State * list Event)
  : State * list Event :=
  (match posted (snd p) with
   | [] => fst p
   | _ :: _ =>
       {| eng := receiveAnswer r (eng (fst p)); store := store (fst p) |}
   end, snd p).


(** What one handler, run up to the answers, does to buffer and coins. *)
Definition handler_ok (s s' : State) (e : list Event) : Prop :=
  maxBufferSize (eng s') = maxBufferSize (eng s)
  /\ (exists added,
        heartbeatBuffer (eng s') = heartbeatBuffer (eng s) ++ added
        /\ (List.length added <= 1)%nat)
  /\ (posted e = [] \/ posted e = [heartbeatBuffer (eng s')])
  /\ (posted e = [] ->
      buffer_length s < maxBufferSize (eng s) ->
      buffer_length s' < maxBufferSize (eng s))
  /\ totalCoinsChange (heartbeatBuffer (eng s'))
     = totalCoinsChange (heartbeatBuffer (eng s)) + announced_change e
  /\ announced_change e <= balance s' - balance s.


(** ** The backend's aggregation (services/aggregation.js) *)

(** What [aggregateUserData] keeps per day, the per-site breakdown left
    out. [sessionsCount] is the [Set] of session ids, in insertion order. *)
Record DayData := mkDay {
  totalFocusTime : Z;
  coinsEarned : Z;
  coinsSpent : Z;
  productiveTime : Z;
  distractingTime : Z;
  sessionsCount : list (option string)
}.

Definition emptyDay : DayData := mkDay 0 0 0 0 0 [].

Definition same_session (a b : option string) : bool :=
  match a, b with
  | None, None => true
  | Some x, Some y => String.eqb x y
  | _, _ => false
  end.

(** [set.add(x)]. *)
Definition set_add (x : option string) (set : list (option string))
  : list (option string) :=
  if existsb (same_session x) set then set else set ++ [x].

(** The body of the [forEach] of [aggregateUserData] on the day's entry:
    session, coins, and 5 seconds of time by site type. *)
Definition track (hb : Heartbeat) (d : DayData) : DayData :=
  let sessions := set_add (hb_sessionId hb) (sessionsCount d) in
  let change := coinsChange (data hb) in
  let earned := if 0 <? change then coinsEarned d + change else coinsEarned d in
  let spent :=
    if 0 <? change then coinsSpent d
    else if change <? 0 then coinsSpent d + Z.abs change
    else coinsSpent d in
  let timeIncrement := 5 in
  match siteType (data hb) with
  | productive =>
      mkDay (totalFocusTime d + timeIncrement) earned spent
        (productiveTime d + timeIncrement) (distractingTime d) sessions
  | distracting =>
      mkDay (totalFocusTime d) earned spent
        (productiveTime d) (distractingTime d + timeIncrement) sessions
  | neutral =>
      mkDay (totalFocusTime d) earned spent
        (productiveTime d) (distractingTime d) sessions
  end.

(** [hb.timestamp.toISOString().split('T')[0]]: the UTC calendar day of
    the timestamp, given here by its number (days since the epoch) rather
    than by its [YYYY-MM-DD] text. *)
Definition dateKey (hb : Heartbeat) : Z :=
  JS.floor_div (timestamp (data hb)) 86400000.

(** [dailyData[dateKey]], an object used as a map in insertion order. *)
Fixpoint lookup_day (key : Z) (days : list (Z * DayData)) : option DayData :=
  match days with
  | [] => None
  | (k, d) :: rest => if k =? key then Some d else lookup_day key rest
  end.

Fixpoint upsert_day (key : Z) (hb : Heartbeat) (days : list (Z * DayData))
  : list (Z * DayData) :=
  match days with
  | [] => [(key, track hb emptyDay)]
  | (k, d) :: rest =>
      if k =? key then (k, track hb d) :: rest
      else (k, d) :: upsert_day key hb rest
  end.

(** The grouping by date of [aggregateUserData]. *)
Definition groupByDate (heartbeats : list Heartbeat) : list (Z * DayData) :=
  fold_left (fun days hb => upsert_day (dateKey hb) hb days) heartbeats [].

(** The heartbeats of one day, and what tracking just them gives. *)
Definition on_day (key : Z) (heartbeats : list Heartbeat) : list Heartbeat :=
  filter (fun hb => dateKey hb =? key) heartbeats.

Definition summary (heartbeats : list Heartbeat) : DayData :=
  fold_left (fun d hb => track hb d) heartbeats emptyDay.

Definition count_type (ty : SiteType) (heartbeats : list Heartbeat) : Z :=
  Z.of_nat
    (List.length
       (filter (fun hb => match siteType (data hb), ty with
                          | productive, productive => true
                          | distracting, distracting => true
                          | neutral, neutral => true
                          | _, _ => false
                          end) heartbeats)).

(** A stored day as [calculateStreak] reads it: [date] is the day number of
    the [YYYY-MM-DD] key, so that [new Date(date)] is [date * 86400000]. *)
Record DailyStat := mkStat {
  date : Z;
  focusTime : Z
}.

(** The clock of [calculateStreak]: [local_midnight] is [new Date()] after
    [setHours(0, 0, 0, 0)], in milliseconds; [day_before c] is what
    [setDate(getDate() - 1)] makes of [c]. *)
Record Calendar := mkCalendar {
  local_midnight : Z;
  day_before : Z -> Z
}.

(** [array.sort((a, b) => new Date(b.date) - new Date(a.date))]: stable,
    latest date first. *)
Fixpoint insert_stat (x : DailyStat) (l : list DailyStat) : list DailyStat :=
  match l with
  | [] => [x]
  | y :: l' => if date y <=? date x then x :: y :: l' else y :: insert_stat x l'
  end.

Definition sort_stats (l : list DailyStat) : list DailyStat :=
  fold_right insert_stat [] l.

(** The [for] loop of [calculateStreak]. *)
Fixpoint streak_loop (cal : Calendar) (sortedStats : list DailyStat)
    (streak currentDate : Z) : Z :=
  match sortedStats with
  | [] => streak
  | dayStat :: rest =>
      let statDate := date dayStat * 86400000 in
      let dayDiff := JS.floor_div (currentDate - statDate) (1000 * 60 * 60 * 24) in
      if dayDiff =? streak
      then streak_loop cal rest (streak + 1) (day_before cal currentDate)
      else streak
  end.

(** [calculateStreak(dailyStats)]. *)
Definition calculateStreak (cal : Calendar) (dailyStats : list DailyStat) : Z :=
  let sortedStats :=
    filter (fun day => 0 <? focusTime day) (sort_stats dailyStats) in
  match sortedStats with
  | [] => 0
  | _ :: _ => streak_loop cal sortedStats 0 (local_midnight cal)
  end.

(** The order [sort_stats] establishes. *)
Definition later_first (a b : DailyStat) : Prop := date b <= date a.

(** ** String lemmas *)

Lemma startsWith_spec (p s : string) :
  JS.startsWith p s = true <-> exists t, s = (p ++ t)%string.
Proof.
  revert s; induction p as [|a p IH]; intros s; simpl.
  - split; [intros _; now exists s | reflexivity].
  - destruct s as [|b s].
    + split; [discriminate | intros [t Ht]; discriminate].
    + rewrite andb_true_iff, Ascii.eqb_eq, IH. split.
      * intros [-> [t ->]]. now exists t.
      * intros [t Ht]. injection Ht as -> ->. split; [reflexivity | now exists t].
Qed.

Lemma includes_spec (s sub : string) :
  JS.includes s sub = true <-> substring_of sub s.
Proof.
  induction s as [|c s IH]; simpl.
  - destruct (JS.startsWith sub "") eqn:E.
    + split; [intros _ | reflexivity].
      apply startsWith_spec in E as [t Ht].
      exists ""%string, t. exact Ht.
    + split; [discriminate|]. intros (pre & post & H).
      destruct pre; [|discriminate]. simpl in H.
      assert (JS.startsWith sub "" = true) by (apply startsWith_spec; now exists post).
      congruence.
  - destruct (JS.startsWith sub (String c s)) eqn:E.
    + split; [intros _ | reflexivity].
      apply startsWith_spec in E as [t Ht].
      exists ""%string, t. exact Ht.
    + rewrite IH. split.
      * intros (pre & post & ->). now exists (String c pre), post.
      * intros (pre & post & H). destruct pre as [|a pre].
        -- simpl in H.
           assert (JS.startsWith sub (String c s) = true)
             by (apply startsWith_spec; now exists post).
           congruence.
        -- injection H as -> ->. now exists pre, post.
Qed.

Lemma some_includes_spec (domain : string) (l : list string) :
  existsb (fun s => JS.includes domain s) l = true
  <-> exists s, In s l /\ substring_of s domain.
Proof.
  rewrite existsb_exists. split; intros (x & Hin & H); exists x; split; auto;
    now apply includes_spec.
Qed.

(** ** What one evaluation can do *)

Lemma updateCoins_outcome (w : Env) (s : State) :
  Outcome w s (updateCoins w s).
Proof.
  unfold updateCoins.
  destruct (isSessionActive (eng s)); cbn [negb]; [|apply Idle].
  destruct (observe w (eng s)) as [[[[tab u] domain] ty]|] eqn:Hobs;
    [|apply Idle].
  destruct ty; [| |apply Idle].
  - destruct (0 <? intervalsElapsed w (eng s)) eqn:Hn; [|apply Idle].
    apply Z.ltb_lt in Hn. now apply Earned.
  - destruct (0 <? intervalsElapsed w (eng s)) eqn:Hn; [|apply Idle].
    apply Z.ltb_lt in Hn.
    destruct (0 <? balance s) eqn:Hb.
    + apply Z.ltb_lt in Hb. now apply Spent.
    + apply Z.ltb_ge in Hb. now apply (Blocked w s tab u domain).
Qed.

Lemma syncHeartbeats_nonempty (r : ApiResult) (e : Engine) :
  heartbeatBuffer e <> [] ->
  syncHeartbeats r e =
    (if confirmed r then set_heartbeatBuffer e [] else e,
     [PostHeartbeats (uuid e) (heartbeatBuffer e)]).
Proof.
  unfold syncHeartbeats. destruct (heartbeatBuffer e); [congruence | reflexivity].
Qed.

Lemma addHeartbeat_eq (d : HeartbeatData) (r : ApiResult) (e : Engine) :
  let pushed := heartbeatBuffer e ++ [mkHeartbeat d (sessionId e)] in
  addHeartbeat d r e =
    (set_heartbeatBuffer e
       (if is_full e pushed && confirmed r then [] else pushed),
     if is_full e pushed then [PostHeartbeats (uuid e) pushed] else []).
Proof.
  intros pushed. unfold addHeartbeat. fold pushed. simpl.
  rewrite Z.geb_leb. unfold is_full.
  destruct (maxBufferSize e <=? Z.of_nat (List.length pushed)); simpl;
    [|reflexivity].
  rewrite syncHeartbeats_nonempty
    by (simpl; subst pushed; destruct (heartbeatBuffer e); discriminate).
  simpl. destruct (confirmed r); reflexivity.
Qed.

Lemma commit_eq (w : Env) (s : State) (tab : Tab) (u domain : string)
    (ty : SiteType) (c t ch : Z) :
  let pushed :=
    heartbeatBuffer (eng s) ++ [heartbeat_of w (eng s) tab u domain ty ch] in
  commit w s tab u domain ty c t ch =
    ({| eng :=
          set_lastUpdateTime
            (set_heartbeatBuffer (eng s)
               (if is_full (eng s) pushed && confirmed (fetch_result w)
                then [] else pushed))
            (date_now w);
        store := set_coins (store s) c t |},
     [StorageSetCoins c t]
     ++ (if is_full (eng s) pushed
         then [PostHeartbeats (uuid (eng s)) pushed] else [])
     ++ [CoinsUpdated c ch ty domain]).
Proof.
  intros pushed. unfold commit. rewrite addHeartbeat_eq. reflexivity.
Qed.

(** ** Preservation lemmas *)

Lemma config_eq_refl (e : Engine) : config_eq e e.
Proof. repeat split. Qed.

Lemma config_eq_trans (e1 e2 e3 : Engine) :
  config_eq e1 e2 -> config_eq e2 e3 -> config_eq e1 e3.
Proof.
  unfold config_eq. intros (a & b & c & d) (a' & b' & c' & d').
  repeat split; congruence.
Qed.

Lemma syncHeartbeats_config (r : ApiResult) (e : Engine) :
  config_eq e (fst (syncHeartbeats r e)).
Proof.
  unfold syncHeartbeats. destruct (heartbeatBuffer e); simpl.
  - apply config_eq_refl.
  - destruct (confirmed r); repeat split.
Qed.

Lemma updateCoins_config (w : Env) (s : State) :
  config_eq (eng s) (eng (fst (updateCoins w s))).
Proof.
  destruct (updateCoins_outcome w s); try apply config_eq_refl;
    rewrite commit_eq; repeat split.
Qed.

Lemma handleTabChange_config (t : Z) (w : Env) (s : State) :
  config_eq (eng s) (eng (fst (handleTabChange t w s))).
Proof.
  unfold handleTabChange. destruct (isSessionActive (eng s)); simpl.
  - eapply config_eq_trans; [|apply updateCoins_config]. repeat split.
  - apply config_eq_refl.
Qed.

Lemma step_config (o : Op) (s : State) :
  config_eq (eng s) (eng (fst (step o s))).
Proof.
  destruct o as [w|id t w|id has_url t w|r|sid t r w|rsync rstop]; simpl.
  - apply updateCoins_config.
  - unfold onActivated.
    eapply config_eq_trans; [|apply handleTabChange_config]. repeat split.
  - unfold onUpdated. destruct (_ && has_url).
    + apply handleTabChange_config.
    + apply config_eq_refl.
  - pose proof (syncHeartbeats_config r (eng s)) as H.
    destruct (syncHeartbeats r (eng s)). exact H.
  - unfold startSession, startMonitoring. destruct r; simpl.
    + repeat split.
    + match goal with |- context [updateCoins w ?x] =>
        pose proof (updateCoins_config w x) as H;
        destruct (updateCoins w x) as [s1 evs] end.
      simpl in *. exact H.
  - unfold stopSession.
    match goal with |- context [syncHeartbeats rsync ?x] =>
      pose proof (syncHeartbeats_config rsync x) as H;
      destruct (syncHeartbeats rsync x) as [e2 sent] end.
    destruct rstop; simpl in *; exact H.
Qed.

(** ** Site classification *)

(** C6. [getSiteType] answers productive exactly when some entry of the
    productive list is a substring of the hostname (whatever the distracting
    list holds), distracting exactly when no productive entry but some
    distracting entry is a substring, and neutral exactly when neither list
    has a matching entry. *)
Theorem getSiteType_spec (e : Engine) (H : string) :
  let inP := exists p, In p (productiveSites e) /\ substring_of p H in
  let inD := exists d, In d (distractingSites e) /\ substring_of d H in
  (getSiteType e H = productive <-> inP)
  /\ (getSiteType e H = distracting <-> ~ inP /\ inD)
  /\ (getSiteType e H = neutral <-> ~ inP /\ ~ inD).
Proof.
  intros inP inD. unfold getSiteType.
  pose proof (some_includes_spec H (productiveSites e)) as HP.
  pose proof (some_includes_spec H (distractingSites e)) as HD.
  fold inP in HP. fold inD in HD.
  destruct (existsb _ (productiveSites e)).
  - assert (inP) by now apply HP.
    repeat split; try discriminate; try tauto.
  - assert (~ inP) by (intros X; apply HP in X; discriminate).
    destruct (existsb _ (distractingSites e)).
    + assert (inD) by now apply HD.
      repeat split; try discriminate; try tauto.
    + assert (~ inD) by (intros X; apply HD in X; discriminate).
      repeat split; try discriminate; try tauto.
Qed.

(** ** Hostname normalisation *)

Lemma includes_cons (c : ascii) (s sub : string) :
  JS.includes (String c s) sub
  = if JS.startsWith sub (String c s) then true else JS.includes s sub.
Proof. reflexivity. Qed.

Lemma replace_cons (c : ascii) (s pat rep : string) :
  JS.replace (String c s) pat rep
  = if JS.startsWith pat (String c s)
    then (rep ++ JS.drop (String.length pat) (String c s))%string
    else String c (JS.replace s pat rep).
Proof. reflexivity. Qed.

(** A leading [www.] is removed and the rest kept. *)
Lemma normalize_leading_www (h : string) :
  normalize ("www." ++ h) = h.
Proof. reflexivity. Qed.

(** A hostname in which [www.] does not occur is kept as it is. *)
Lemma normalize_without_www (h : string) :
  JS.includes h "www." = false -> normalize h = h.
Proof.
  unfold normalize. induction h as [|c h IH]; intros Hn.
  - reflexivity.
  - rewrite includes_cons in Hn. rewrite replace_cons.
    destruct (JS.startsWith "www." (String c h)); [discriminate|].
    now rewrite IH.
Qed.

(** C7. On the hostname [github.www.com], which has no leading [www.],
    [updateCoins] classifies the domain [github.com]: the inner [www.] is
    cut out, the hostname is not left intact, and a hostname that matches no
    list entry is classified productive. *)
Theorem normalize_cuts_inner_www :
  let w := visiting "https://github.www.com/" 5000 NetworkError in
  url_hostname w "https://github.www.com/" = Some "github.www.com"%string
  /\ strip_www_prefix "github.www.com" = "github.www.com"%string
  /\ normalize "github.www.com" = "github.com"%string
  /\ getSiteType (constructor 0) "github.www.com" = neutral
  /\ observe w (constructor 0)
     = Some (mkTab 7 (Some "https://github.www.com/"%string),
             "https://github.www.com/"%string, "github.com"%string,
             productive).
Proof. intros w. repeat (split; [reflexivity|]). reflexivity. Qed.

(** ** One evaluation, branch by branch *)

Lemma updateCoins_productive (w : Env) (s : State) tab u domain :
  isSessionActive (eng s) = true ->
  observe w (eng s) = Some (tab, u, domain, productive) ->
  0 < intervalsElapsed w (eng s) ->
  updateCoins w s =
    commit w s tab u domain productive
      (balance s + intervalsElapsed w (eng s) * 3)
      (earnedToday s + intervalsElapsed w (eng s) * 3)
      (intervalsElapsed w (eng s) * 3).
Proof.
  intros Ha Ho Hn. unfold updateCoins. rewrite Ha, Ho. cbn [negb].
  apply Z.ltb_lt in Hn. now rewrite Hn.
Qed.

Lemma updateCoins_distracting (w : Env) (s : State) tab u domain :
  isSessionActive (eng s) = true ->
  observe w (eng s) = Some (tab, u, domain, distracting) ->
  0 < intervalsElapsed w (eng s) ->
  0 < balance s ->
  updateCoins w s =
    commit w s tab u domain distracting
      (JS.max 0 (balance s + intervalsElapsed w (eng s) * -4))
      (earnedToday s)
      (intervalsElapsed w (eng s) * -4).
Proof.
  intros Ha Ho Hn Hb. unfold updateCoins. rewrite Ha, Ho. cbn [negb].
  apply Z.ltb_lt in Hn, Hb. now rewrite Hn, Hb.
Qed.

Lemma updateCoins_depleted (w : Env) (s : State) tab u domain :
  isSessionActive (eng s) = true ->
  observe w (eng s) = Some (tab, u, domain, distracting) ->
  0 < intervalsElapsed w (eng s) ->
  balance s <= 0 ->
  updateCoins w s = (s, blockSite tab domain).
Proof.
  intros Ha Ho Hn Hb. unfold updateCoins. rewrite Ha, Ho. cbn [negb].
  apply Z.ltb_lt in Hn. apply Z.ltb_ge in Hb. now rewrite Hn, Hb.
Qed.

Lemma updateCoins_no_tick (w : Env) (s : State) :
  intervalsElapsed w (eng s) <= 0 ->
  updateCoins w s = (s, []).
Proof.
  intros Hn. apply Z.ltb_ge in Hn. unfold updateCoins.
  destruct (negb (isSessionActive (eng s))); [reflexivity|].
  destruct (observe w (eng s)) as [[[[tab u] domain] ty]|]; [|reflexivity].
  destruct ty; rewrite ?Hn; reflexivity.
Qed.

(** ** Blocking *)

(** C3. With the session active, a distracting site in the active tab, at
    least one whole interval elapsed and a stored balance of 0, [updateCoins]
    calls [blockSite] with the tab and the classified domain and returns:
    the whole state (balance, today's coins, heartbeat buffer,
    [lastUpdateTime]) is unchanged and the tab update is the only call
    made, so nothing is saved, buffered or posted. *)
Theorem updateCoins_blocks_at_zero (w : Env) (s : State) tab u domain :
  isSessionActive (eng s) = true ->
  observe w (eng s) = Some (tab, u, domain, distracting) ->
  1 <= intervalsElapsed w (eng s) ->
  balance s = 0 ->
  updateCoins w s = (s, [TabsUpdate (tab_id tab) domain]).
Proof.
  intros Ha Ho Hn Hb.
  rewrite (updateCoins_depleted w s tab u domain); auto; lia.
Qed.

Lemma updateCoins_blocks_at_zero_witness :
  let w := visiting "https://www.youtube.com/watch" 5000 NetworkError in
  let s := monitoring 0 in
  let tab := mkTab 7 (Some "https://www.youtube.com/watch"%string) in
  isSessionActive (eng s) = true
  /\ observe w (eng s)
     = Some (tab, "https://www.youtube.com/watch"%string,
             "youtube.com"%string, distracting)
  /\ 1 <= intervalsElapsed w (eng s)
  /\ balance s = 0
  /\ updateCoins w s = (s, [TabsUpdate 7 "youtube.com"]).
Proof.
  intros w s tab. do 4 (split; [vm_compute; congruence|]).
  apply (updateCoins_blocks_at_zero w s tab
           "https://www.youtube.com/watch" "youtube.com");
    vm_compute; congruence.
Defined.

(** ** Flushing the buffer *)

(** C4. [syncHeartbeats] on an empty buffer changes nothing and sends
    nothing. On a non-empty buffer it posts the whole buffer in one request;
    afterwards the buffer is empty exactly when the answer confirmed success,
    and on a thrown error or an answer without success the engine, buffer
    included, is as before. *)
Theorem syncHeartbeats_spec (r : ApiResult) (e : Engine) :
  (heartbeatBuffer e = [] -> syncHeartbeats r e = (e, []))
  /\ (heartbeatBuffer e <> [] ->
      snd (syncHeartbeats r e) = [PostHeartbeats (uuid e) (heartbeatBuffer e)]
      /\ (heartbeatBuffer (fst (syncHeartbeats r e)) = []
          <-> r = Json true)
      /\ (r = NetworkError \/ r = Json false ->
          fst (syncHeartbeats r e) = e)).
Proof.
  split.
  - intros Hb. unfold syncHeartbeats. now rewrite Hb.
  - intros Hb. rewrite syncHeartbeats_nonempty by assumption. cbn [fst snd].
    split; [reflexivity|]. split.
    + destruct r as [|[|]]; cbn [confirmed]; split; intros H;
        try reflexivity; try discriminate; contradiction.
    + intros [-> | ->]; reflexivity.
Qed.

(** ** Accrual *)

(** C8. After an evaluation that left [lastUpdateTime] at its own
    [Date.now()], a second evaluation less than one [coinUpdateInterval]
    later changes nothing at all (balance, today's coins and heartbeat
    buffer included) and makes no call. *)
Theorem updateCoins_twice_within_interval (w1 w2 : Env) (s : State) :
  0 < coinUpdateInterval (eng s) ->
  lastUpdateTime (eng (fst (updateCoins w1 s))) = date_now w1 ->
  date_now w2 - date_now w1 < coinUpdateInterval (eng s) ->
  updateCoins w2 (fst (updateCoins w1 s)) = (fst (updateCoins w1 s), []).
Proof.
  intros Hi Hl Hd. apply updateCoins_no_tick.
  destruct (updateCoins_config w1 s) as (Hc & _).
  unfold intervalsElapsed, JS.floor_div. rewrite Hl, Hc.
  apply Z.lt_succ_r. apply Z.div_lt_upper_bound; lia.
Qed.

Lemma updateCoins_twice_within_interval_witness :
  let w1 := visiting "https://github.com/rocq-prover" 15000 (Json true) in
  let w2 := visiting "https://github.com/rocq-prover" 19999 (Json true) in
  let s := monitoring 10 in
  0 < coinUpdateInterval (eng s)
  /\ lastUpdateTime (eng (fst (updateCoins w1 s))) = date_now w1
  /\ date_now w2 - date_now w1 < coinUpdateInterval (eng s)
  /\ balance (fst (updateCoins w1 s)) = 19
  /\ updateCoins w2 (fst (updateCoins w1 s)) = (fst (updateCoins w1 s), []).
Proof.
  intros w1 w2 s.
  split; [reflexivity|]. split; [reflexivity|]. split; [reflexivity|].
  split; [reflexivity|].
  apply (updateCoins_twice_within_interval w1 w2 s); reflexivity.
Defined.

(** C9. With the session active, a productive site in the active tab, three
    whole intervals elapsed and a balance of 10: the balance becomes 19,
    today's coins grow by 9, and exactly one heartbeat, with [coinsChange]
    9 and [action] focus, is pushed onto the buffer (which is then posted and,
    on confirmed success, cleared if it has reached [maxBufferSize]). *)
Theorem updateCoins_three_productive_ticks (w : Env) (s : State) tab u domain :
  isSessionActive (eng s) = true ->
  observe w (eng s) = Some (tab, u, domain, productive) ->
  intervalsElapsed w (eng s) = 3 ->
  balance s = 10 ->
  let s' := fst (updateCoins w s) in
  let hb :=
    mkHeartbeat (mkData (date_now w) domain productive focus 9 (tab_id tab) u)
      (sessionId (eng s)) in
  let pushed := heartbeatBuffer (eng s) ++ [hb] in
  balance s' = 19
  /\ earnedToday s' = earnedToday s + 9
  /\ heartbeatBuffer (eng s')
     = (if is_full (eng s) pushed && confirmed (fetch_result w)
        then [] else pushed)
  /\ snd (updateCoins w s)
     = [StorageSetCoins 19 (earnedToday s + 9)]
       ++ (if is_full (eng s) pushed
           then [PostHeartbeats (uuid (eng s)) pushed] else [])
       ++ [CoinsUpdated 19 9 productive domain].
Proof.
  intros Ha Ho Hn Hb s' hb pushed. subst s'.
  rewrite (updateCoins_productive w s tab u domain) by (auto; lia).
  rewrite commit_eq, Hn, Hb. cbn [fst snd]. repeat split.
Qed.

Lemma updateCoins_three_productive_ticks_witness :
  let w := visiting "https://www.github.com/rocq-prover" 15000 (Json true) in
  let s := monitoring 10 in
  let hb :=
    mkHeartbeat
      (mkData 15000 "github.com" productive focus 9 7
         "https://www.github.com/rocq-prover")
      (Some "session-1"%string) in
  intervalsElapsed w (eng s) = 3
  /\ balance s = 10
  /\ balance (fst (updateCoins w s)) = 19
  /\ earnedToday (fst (updateCoins w s)) = earnedToday s + 9
  /\ heartbeatBuffer (eng (fst (updateCoins w s))) = [hb].
Proof.
  intros w s hb.
  split; [reflexivity|]. split; [reflexivity|].
  destruct (updateCoins_three_productive_ticks w s
              (mkTab 7 (Some "https://www.github.com/rocq-prover"%string))
              "https://www.github.com/rocq-prover" "github.com"
              eq_refl eq_refl eq_refl eq_refl) as (H1 & H2 & H3 & _).
  split; [exact H1|]. split; [exact H2|]. exact H3.
Defined.

Lemma totalCoinsChange_app (l : list Heartbeat) (hb : Heartbeat) :
  totalCoinsChange (l ++ [hb]) = totalCoinsChange l + coinsChange (data hb).
Proof. unfold totalCoinsChange. now rewrite fold_left_app. Qed.

(** C10. With the session active, a distracting site in the active tab,
    [n] whole intervals elapsed and a balance strictly between 0 and [4 n]:
    the balance drops to 0, that is by less than [4 n], while the heartbeat
    pushed onto the buffer carries [coinsChange = -4 n]. The buffered changes
    then sum to strictly less than what they summed to before plus the true
    change of the balance. *)
Theorem heartbeat_carries_unclamped_delta (w : Env) (s : State) tab u domain :
  isSessionActive (eng s) = true ->
  observe w (eng s) = Some (tab, u, domain, distracting) ->
  0 < balance s ->
  balance s < 4 * intervalsElapsed w (eng s) ->
  let n := intervalsElapsed w (eng s) in
  let s' := fst (updateCoins w s) in
  let hb :=
    mkHeartbeat
      (mkData (date_now w) domain distracting distract (-4 * n) (tab_id tab) u)
      (sessionId (eng s)) in
  let pushed := heartbeatBuffer (eng s) ++ [hb] in
  heartbeatBuffer (eng s')
  = (if is_full (eng s) pushed && confirmed (fetch_result w)
     then [] else pushed)
  /\ balance s' = 0
  /\ coinsChange (data hb) < balance s' - balance s
  /\ totalCoinsChange pushed
     < totalCoinsChange (heartbeatBuffer (eng s)) + (balance s' - balance s).
Proof.
  intros Ha Ho Hb Hlt n s' hb pushed. subst s'.
  rewrite (updateCoins_distracting w s tab u domain) by (auto; lia).
  rewrite commit_eq. cbn [fst snd]. fold n.
  replace (n * -4) with (-4 * n) by lia.
  unfold heartbeat_of. fold hb. fold pushed.
  split; [reflexivity|].
  assert (Hz : balance {| eng := set_lastUpdateTime
                 (set_heartbeatBuffer (eng s)
                    (if is_full (eng s) pushed && confirmed (fetch_result w)
                     then [] else pushed)) (date_now w);
               store := set_coins (store s)
                          (JS.max 0 (balance s + -4 * n)) (earnedToday s) |} = 0).
  { unfold balance at 1. cbn [store set_coins focusCoins JS.or0].
    unfold JS.max. subst n. lia. }
  rewrite Hz. split; [reflexivity|].
  subst pushed. rewrite totalCoinsChange_app. cbn [coinsChange data hb].
  subst n. lia.
Qed.

Lemma heartbeat_carries_unclamped_delta_witness :
  let w := visiting "https://www.youtube.com/watch" 10000 (Json true) in
  let s := monitoring 5 in
  let hb :=
    mkHeartbeat
      (mkData 10000 "youtube.com" distracting distract (-8) 7
         "https://www.youtube.com/watch")
      (Some "session-1"%string) in
  0 < balance s
  /\ balance s < 4 * intervalsElapsed w (eng s)
  /\ heartbeatBuffer (eng (fst (updateCoins w s))) = [hb]
  /\ balance (fst (updateCoins w s)) = 0
  /\ totalCoinsChange [hb] < 0 + (balance (fst (updateCoins w s)) - balance s).
Proof.
  intros w s hb.
  split; [reflexivity|]. split; [reflexivity|].
  destruct (heartbeat_carries_unclamped_delta w s
              (mkTab 7 (Some "https://www.youtube.com/watch"%string))
              "https://www.youtube.com/watch" "youtube.com"
              eq_refl eq_refl eq_refl eq_refl) as (H1 & H2 & _ & H4).
  split; [exact H1|]. split; [exact H2|]. exact H4.
Defined.

(** C1, as stated, fails: with balance 2 on youtube.com after one interval
    the balance does drop to 0, but the heartbeat (with [coinsChange = -4])
    is buffered and [blockSite] is not called. *)
Lemma low_balance_tick_does_not_block :
  let w := visiting "https://www.youtube.com/watch" 5000 NetworkError in
  let s := monitoring 2 in
  let hb :=
    mkHeartbeat
      (mkData 5000 "youtube.com" distracting distract (-4) 7
         "https://www.youtube.com/watch")
      (Some "session-1"%string) in
  balance s = 2
  /\ intervalsElapsed w (eng s) = 1
  /\ heartbeatBuffer (eng s) = []
  /\ heartbeatBuffer (eng (fst (updateCoins w s))) = [hb]
  /\ filter is_block (snd (updateCoins w s)) = []
  /\ ~ clamps_and_blocks w s.
Proof.
  intros w s hb. do 5 (split; [reflexivity|]).
  intros (_ & H & _). vm_compute in H. discriminate.
Qed.

(** C1, amended. With the session active, a distracting site in the active
    tab, exactly one whole interval elapsed and a balance of 2: the balance
    is floored at 0 (2 - 4 would be negative), today's coins are unchanged,
    one heartbeat with [coinsChange = -4] and [action] distract is pushed
    onto the buffer, and [blockSite] is not called in this evaluation. *)
Theorem updateCoins_low_balance_distracting_tick
    (w : Env) (s : State) tab u domain :
  isSessionActive (eng s) = true ->
  observe w (eng s) = Some (tab, u, domain, distracting) ->
  intervalsElapsed w (eng s) = 1 ->
  balance s = 2 ->
  let s' := fst (updateCoins w s) in
  let hb :=
    mkHeartbeat
      (mkData (date_now w) domain distracting distract (-4) (tab_id tab) u)
      (sessionId (eng s)) in
  let pushed := heartbeatBuffer (eng s) ++ [hb] in
  balance s' = 0
  /\ earnedToday s' = earnedToday s
  /\ heartbeatBuffer (eng s')
     = (if is_full (eng s) pushed && confirmed (fetch_result w)
        then [] else pushed)
  /\ snd (updateCoins w s)
     = [StorageSetCoins 0 (earnedToday s)]
       ++ (if is_full (eng s) pushed
           then [PostHeartbeats (uuid (eng s)) pushed] else [])
       ++ [CoinsUpdated 0 (-4) distracting domain]
  /\ filter is_block (snd (updateCoins w s)) = [].
Proof.
  intros Ha Ho Hn Hb s' hb pushed. subst s'.
  rewrite (updateCoins_distracting w s tab u domain) by (auto; lia).
  rewrite commit_eq, Hn, Hb. cbn [fst snd].
  do 4 (split; [reflexivity|]).
  unfold heartbeat_of. destruct (is_full _ _); reflexivity.
Qed.

Lemma updateCoins_low_balance_distracting_tick_witness :
  let w := visiting "https://www.youtube.com/watch" 5000 NetworkError in
  let s := monitoring 2 in
  let tab := mkTab 7 (Some "https://www.youtube.com/watch"%string) in
  isSessionActive (eng s) = true
  /\ observe w (eng s)
     = Some (tab, "https://www.youtube.com/watch"%string,
             "youtube.com"%string, distracting)
  /\ intervalsElapsed w (eng s) = 1
  /\ balance s = 2
  /\ balance (fst (updateCoins w s)) = 0
  /\ filter is_block (snd (updateCoins w s)) = [].
Proof.
  intros w s tab. do 4 (split; [reflexivity|]).
  destruct (updateCoins_low_balance_distracting_tick w s tab
              "https://www.youtube.com/watch" "youtube.com"
              eq_refl eq_refl eq_refl eq_refl) as (H1 & _ & _ & _ & H5).
  split; [exact H1 | exact H5].
Defined.

(** ** The balance over runs *)

Lemma commit_balance (w : Env) (s : State) tab u domain ty c t ch :
  balance (fst (commit w s tab u domain ty c t ch)) = c.
Proof. now rewrite commit_eq. Qed.

Lemma updateCoins_balance (w : Env) (s : State) :
  0 <= balance s -> 0 <= balance (fst (updateCoins w s)).
Proof.
  intros Hb. destruct (updateCoins_outcome w s); cbn [fst]; auto;
    rewrite commit_balance; unfold JS.max; lia.
Qed.

Lemma handleTabChange_balance (t : Z) (w : Env) (s : State) :
  0 <= balance s -> 0 <= balance (fst (handleTabChange t w s)).
Proof.
  intros Hb. unfold handleTabChange.
  destruct (isSessionActive (eng s)); cbn [negb fst].
  - now apply updateCoins_balance.
  - exact Hb.
Qed.

Lemma step_balance (o : Op) (s : State) :
  0 <= balance s -> 0 <= balance (fst (step o s)).
Proof.
  intros Hb.
  destruct o as [w|id t w|id has_url t w|r|sid t r w|rsync rstop]; cbn [step].
  - now apply updateCoins_balance.
  - unfold onActivated. now apply handleTabChange_balance.
  - unfold onUpdated. destruct (_ && has_url).
    + now apply handleTabChange_balance.
    + exact Hb.
  - destruct (syncHeartbeats r (eng s)). exact Hb.
  - unfold startSession, startMonitoring. destruct r; cbn [fst].
    + exact Hb.
    + match goal with |- context [updateCoins w ?x] =>
        pose proof (updateCoins_balance w x Hb) as H;
        destruct (updateCoins w x) as [s1 evs] end.
      exact H.
  - unfold stopSession.
    match goal with |- context [syncHeartbeats rsync ?x] =>
      destruct (syncHeartbeats rsync x) as [e2 sent] end.
    destruct rstop; exact Hb.
Qed.

Lemma run_balance (ops : list Op) (s : State) :
  0 <= balance s -> 0 <= balance (fst (run ops s)).
Proof.
  revert s. induction ops as [|o ops IH]; intros s Hb; cbn [run].
  - exact Hb.
  - pose proof (step_balance o s Hb) as H1.
    destruct (step o s) as [s1 evs1]. cbn [fst] in H1.
    specialize (IH s1 H1). destruct (run ops s1) as [s2 evs2]. exact IH.
Qed.

(** C2. From a non-negative balance, the balance after any sequence of
    handler runs (evaluations, tab changes, syncs, session starts and stops)
    is non-negative; and in every state so reached, an evaluation on a
    distracting site whose delta [-4 n] would take the balance below zero
    leaves the balance at exactly 0. *)
Theorem balance_never_negative (ops : list Op) (s : State) :
  0 <= balance s ->
  let s1 := fst (run ops s) in
  0 <= balance s1
  /\ forall w tab u domain,
       isSessionActive (eng s1) = true ->
       observe w (eng s1) = Some (tab, u, domain, distracting) ->
       0 < intervalsElapsed w (eng s1) ->
       balance s1 + intervalsElapsed w (eng s1) * -4 < 0 ->
       balance (fst (updateCoins w s1)) = 0.
Proof.
  intros Hb s1. pose proof (run_balance ops s Hb) as H1. fold s1 in H1.
  split; [exact H1|]. intros w tab u domain Ha Ho Hn Hneg.
  destruct (Z.eq_dec (balance s1) 0) as [Hz|Hz].
  - rewrite (updateCoins_depleted w s1 tab u domain); auto; lia.
  - rewrite (updateCoins_distracting w s1 tab u domain) by (auto; lia).
    rewrite commit_balance. unfold JS.max. lia.
Qed.

Lemma balance_never_negative_witness :
  let s := monitoring 2 in
  let ops :=
    [Tick (visiting "https://github.com/" 5000 NetworkError);
     Tick (visiting "https://www.youtube.com/" 20000 NetworkError)] in
  let w := visiting "https://www.youtube.com/" 25000 NetworkError in
  0 <= balance s
  /\ balance (fst (run ops s)) = 0
  /\ 0 <= balance (fst (run ops s))
  /\ balance (fst (updateCoins w (fst (run ops s)))) = 0.
Proof.
  intros s ops w.
  assert (Hb : 0 <= balance s) by (vm_compute; discriminate).
  destruct (balance_never_negative ops s Hb) as (H1 & H2).
  split; [exact Hb|]. split; [reflexivity|]. split; [exact H1|].
  apply (H2 w (mkTab 7 (Some "https://www.youtube.com/"%string))
           "https://www.youtube.com/"%string "youtube.com"%string);
    vm_compute; reflexivity.
Defined.

(** ** The heartbeat buffer over runs *)

(** C5, as stated, fails: while the backend is unreachable every flush
    leaves the buffer as it is, so the eleventh heartbeat makes it longer
    than [maxBufferSize]. *)
Lemma buffer_outgrows_maxBufferSize :
  let s := monitoring 10 in
  within_maxBufferSize s
  /\ maxBufferSize (eng (fst (run offline_ticks s))) = 10
  /\ buffer_length (fst (run offline_ticks s)) = 11
  /\ ~ within_maxBufferSize (fst (run offline_ticks s)).
Proof.
  intros s. split; [vm_compute; discriminate|].
  split; [reflexivity|]. split; [reflexivity|].
  intros H. vm_compute in H. apply H. reflexivity.
Qed.

Lemma syncHeartbeats_buffer_confirmed (r : ApiResult) (e : Engine) :
  confirmed r = true ->
  heartbeatBuffer (fst (syncHeartbeats r e)) = [].
Proof.
  intros Hr. unfold syncHeartbeats.
  destruct (heartbeatBuffer e) eqn:Hb; cbn [fst]; [exact Hb|].
  now rewrite Hr.
Qed.

Lemma addHeartbeat_flush_attempts (d : HeartbeatData) (r : ApiResult)
    (e : Engine) :
  flush_attempts (snd (addHeartbeat d r e))
  = if is_full e (heartbeatBuffer e ++ [mkHeartbeat d (sessionId e)])
    then 1%nat else 0%nat.
Proof.
  rewrite addHeartbeat_eq. cbn [snd].
  destruct (is_full _ _); reflexivity.
Qed.

(** ** Handlers as sequences of moves *)

Lemma Moves_eq allowed s s' s'' e e' :
  Moves allowed s s' e -> s' = s'' -> e = e' -> Moves allowed s s'' e'.
Proof. now intros H <- <-. Qed.

Lemma Moves_one allowed s s' e :
  Move allowed s s' e -> Moves allowed s s' e.
Proof.
  intros H. eapply Moves_eq.
  - eapply MovesNext; [exact H | apply MovesDone].
  - reflexivity.
  - apply app_nil_r.
Qed.

Lemma Moves_app allowed s1 s2 s3 e1 e2 :
  Moves allowed s1 s2 e1 -> Moves allowed s2 s3 e2 ->
  Moves allowed s1 s3 (e1 ++ e2).
Proof.
  intros H1 H2. induction H1 as [s|s1 s2 s3' e1 e1' Hm _ IH].
  - exact H2.
  - rewrite <- app_assoc. eapply MovesNext; [exact Hm | now apply IH].
Qed.

Lemma Moves_book allowed s s' evs :
  bookkeeping s s' -> forallb is_session_event evs = true ->
  Moves allowed s s' evs.
Proof. intros. now apply Moves_one, MoveBook. Qed.

Lemma bookkeeping_engine (e e' : Engine) (st st' : Storage) :
  config_eq e e' ->
  heartbeatBuffer e' = heartbeatBuffer e ->
  uuid e' = uuid e ->
  focusCoins st' = focusCoins st ->
  todayCoins st' = todayCoins st ->
  bookkeeping {| eng := e; store := st |} {| eng := e'; store := st' |}.
Proof. intros Hc ? ? ? ?. split; [exact Hc|]. repeat split; assumption. Qed.

Lemma updateCoins_moves allowed w s :
  allowed (fetch_result w) ->
  Moves allowed s (fst (updateCoins w s)) (snd (updateCoins w s)).
Proof. intros. now apply Moves_one, MoveEval. Qed.

Lemma Moves_book_then allowed s s1 s' e :
  bookkeeping s s1 -> Moves allowed s1 s' e -> Moves allowed s s' e.
Proof.
  intros Hb H. change e with ([] ++ e).
  eapply Moves_app; [|exact H]. now apply Moves_book.
Qed.

Lemma Moves_then_book allowed s s1 s' e evs :
  Moves allowed s s1 e -> bookkeeping s1 s' ->
  forallb is_session_event evs = true ->
  Moves allowed s s' (e ++ evs).
Proof.
  intros H Hb He. eapply Moves_app; [exact H|]. now apply Moves_book.
Qed.

Lemma handleTabChange_moves allowed t w s :
  allowed (fetch_result w) ->
  Moves allowed s (fst (handleTabChange t w s)) (snd (handleTabChange t w s)).
Proof.
  intros Hr. unfold handleTabChange.
  destruct (isSessionActive (eng s)); cbn [negb fst snd].
  - eapply Moves_book_then; [|apply (updateCoins_moves allowed w _ Hr)].
    destruct s as [e st].
    apply bookkeeping_engine; try reflexivity. repeat split.
  - apply MovesDone.
Qed.

Lemma step_moves allowed (o : Op) (s : State) :
  allowed (sync_result o) ->
  Moves allowed s (fst (step o s)) (snd (step o s)).
Proof.
  destruct o as [w|id t w|id has_url t w|r|sid t r w|rsync rstop];
    cbn [step sync_result]; intros Hr.
  - now apply updateCoins_moves.
  - unfold onActivated.
    eapply Moves_book_then; [|apply (handleTabChange_moves allowed t w _ Hr)].
    destruct s as [e st].
    apply bookkeeping_engine; try reflexivity. repeat split.
  - unfold onUpdated. destruct (_ && has_url).
    + now apply handleTabChange_moves.
    + apply MovesDone.
  - rewrite (surjective_pairing (syncHeartbeats r (eng s))). cbn [fst snd].
    now apply Moves_one, MoveSync.
  - unfold startSession, startMonitoring.
    match goal with |- context [updateCoins w ?x] => set (s1 := x) end.
    assert (Hb : Moves allowed s s1
              [StorageSetSession true (Some t);
               PostSessionStart (uuid (eng s1)) (Some sid) t]).
    { apply Moves_book; [|reflexivity]. destruct s as [e st].
      apply bookkeeping_engine; try reflexivity. repeat split. }
    destruct r; cbn [fst snd].
    + exact Hb.
    + rewrite (surjective_pairing (updateCoins w s1)). cbn [fst snd].
      eapply Moves_app; [exact Hb|].
      rewrite <- (app_nil_r (snd (updateCoins w s1))).
      eapply Moves_then_book;
        [apply (updateCoins_moves allowed w s1 Hr)| |reflexivity].
      destruct (fst (updateCoins w s1)) as [e st].
      apply bookkeeping_engine; try reflexivity. repeat split.
  - unfold stopSession.
    match goal with |- context [syncHeartbeats rsync ?x] => set (e1 := x) end.
    rewrite (surjective_pairing (syncHeartbeats rsync e1)).
    set (e2 := fst (syncHeartbeats rsync e1)).
    set (sent := snd (syncHeartbeats rsync e1)).
    assert (H1 : bookkeeping s {| eng := e1; store := store s |}).
    { destruct s as [e st].
      apply bookkeeping_engine; try reflexivity. repeat split. }
    assert (H2 : Moves allowed {| eng := e1; store := store s |}
                   {| eng := e2; store := store s |} sent).
    { apply Moves_one. apply (MoveSync allowed rsync
                                {| eng := e1; store := store s |} Hr). }
    destruct rstop; cbn [fst snd].
    + eapply Moves_book_then; [exact H1|].
      eapply Moves_then_book; [exact H2| |reflexivity].
      apply bookkeeping_engine; try reflexivity. apply config_eq_refl.
    + eapply Moves_book_then; [exact H1|]. rewrite <- app_assoc.
      eapply Moves_then_book; [exact H2| |reflexivity].
      apply bookkeeping_engine; try reflexivity. repeat split.
Qed.

Lemma run_moves allowed (ops : list Op) (s : State) :
  Forall (fun o => allowed (sync_result o)) ops ->
  Moves allowed s (fst (run ops s)) (snd (run ops s)).
Proof.
  intros Hall. revert s.
  induction Hall as [|o ops Ho _ IH]; intros s; cbn [run].
  - apply MovesDone.
  - pose proof (step_moves allowed o s Ho) as H1.
    destruct (step o s) as [s1 evs1]. cbn [fst snd] in H1.
    specialize (IH s1). destruct (run ops s1) as [s2 evs2].
    cbn [fst snd] in *. now apply Moves_app with s1.
Qed.

Lemma run_moves_any (ops : list Op) (s : State) :
  Moves (fun _ => True) s (fst (run ops s)) (snd (run ops s)).
Proof. apply run_moves. apply Forall_forall. intros; exact I. Qed.

(** A relation between the state before, the state after and the trace
    holds for a sequence of moves as soon as it holds for no move, for each
    single move, and composes. *)
Lemma Moves_rel allowed (R : State -> State -> list Event -> Prop) :
  (forall s, R s s []) ->
  (forall s1 s2 s3 e1 e2, R s1 s2 e1 -> R s2 s3 e2 -> R s1 s3 (e1 ++ e2)) ->
  (forall s s' e, Move allowed s s' e -> R s s' e) ->
  forall s s' e, Moves allowed s s' e -> R s s' e.
Proof.
  intros Hrefl Htrans Hmove s s' e H.
  induction H as [s|s1 s2 s3 e1 e2 Hm _ IH]; [apply Hrefl|].
  eapply Htrans; [apply Hmove; exact Hm | exact IH].
Qed.

(** ** Traces *)

Lemma posted_app (e1 e2 : list Event) :
  posted (e1 ++ e2) = posted e1 ++ posted e2.
Proof.
  induction e1 as [|ev e1 IH]; [reflexivity|].
  destruct ev; cbn [app posted]; now rewrite IH.
Qed.

Lemma announced_change_app (e1 e2 : list Event) :
  announced_change (e1 ++ e2) = announced_change e1 + announced_change e2.
Proof.
  induction e1 as [|ev e1 IH]; [reflexivity|].
  destruct ev; cbn [app announced_change]; rewrite IH; lia.
Qed.

Lemma last_announced_app (e1 e2 : list Event) :
  last_announced (e1 ++ e2)
  = match last_announced e2 with
    | Some c => Some c
    | None => last_announced e1
    end.
Proof.
  induction e1 as [|ev e1 IH]; cbn [app last_announced].
  - now destruct (last_announced e2).
  - destruct ev; try exact IH. rewrite IH.
    destruct (last_announced e2), (last_announced e1); reflexivity.
Qed.

Lemma session_events_silent (evs : list Event) :
  forallb is_session_event evs = true ->
  posted evs = [] /\ announced_change evs = 0 /\ last_announced evs = None.
Proof.
  induction evs as [|ev evs IH]; [now repeat split|].
  cbn [forallb]. intros H. apply andb_true_iff in H as [Hev H].
  destruct ev; try discriminate; cbn [posted announced_change last_announced];
    now apply IH.
Qed.

Lemma sync_confirmed_result (o : Op) :
  sync_confirmed o = confirmed (sync_result o).
Proof. destruct o; reflexivity. Qed.

(** ** What every run keeps *)

Lemma syncHeartbeats_view (r : ApiResult) (e : Engine) :
  (heartbeatBuffer e = [] /\ syncHeartbeats r e = (e, []))
  \/ (heartbeatBuffer e <> []
      /\ syncHeartbeats r e
         = (if confirmed r then set_heartbeatBuffer e [] else e,
            [PostHeartbeats (uuid e) (heartbeatBuffer e)])).
Proof.
  destruct (heartbeatBuffer e) eqn:Hbuf.
  - left. split; [reflexivity|]. unfold syncHeartbeats. now rewrite Hbuf.
  - right. split; [discriminate|]. rewrite <- Hbuf.
    apply syncHeartbeats_nonempty. rewrite Hbuf. discriminate.
Qed.

Lemma well_formed_move allowed s s' e :
  Move allowed s s' e ->
  Forall well_formed (heartbeatBuffer (eng s)) ->
  Forall well_formed (heartbeatBuffer (eng s'))
  /\ Forall (Forall well_formed) (posted e).
Proof.
  intros Hm Hwf. destruct Hm as [w s _|r s _|s s' evs Hb Hev].
  - assert (forall tab u domain ty c t ch,
               well_formed (heartbeat_of w (eng s) tab u domain ty ch) ->
               Forall well_formed
                 (heartbeatBuffer (eng (fst (commit w s tab u domain ty c t ch))))
               /\ Forall (Forall well_formed)
                    (posted (snd (commit w s tab u domain ty c t ch)))) as Hc.
    { intros tab u domain ty c t ch Hnew. rewrite commit_eq. cbn [fst snd].
      assert (Forall well_formed
                (heartbeatBuffer (eng s)
                 ++ [heartbeat_of w (eng s) tab u domain ty ch])) as Hp
        by (apply Forall_app; split; [exact Hwf | now constructor]).
      cbn [eng heartbeatBuffer set_lastUpdateTime set_heartbeatBuffer app posted].
      split.
      - destruct (_ && _); [constructor | exact Hp].
      - destruct (is_full _ _); cbn [app posted]; repeat constructor; exact Hp. }
    destruct (updateCoins_outcome w s) as [|tab u domain _ _ _
                                           |tab u domain _ Hn
                                           |tab u domain _ Hn _].
    + split; [exact Hwf | constructor].
    + split; [exact Hwf | constructor].
    + apply Hc. left. cbn. repeat split.
      exists (intervalsElapsed w (eng s)). now split.
    + apply Hc. right. cbn. repeat split.
      exists (intervalsElapsed w (eng s)). now split.
  - destruct (syncHeartbeats_view r (eng s)) as [[Hbuf ->]|[Hbuf ->]];
      cbn [fst snd eng posted].
    + split; [exact Hwf | constructor].
    + split.
      * destruct (confirmed r); [constructor | exact Hwf].
      * constructor; [exact Hwf | constructor].
  - destruct Hb as (_ & Hbuf & _). rewrite Hbuf.
    destruct (session_events_silent evs Hev) as (-> & _).
    split; [exact Hwf | constructor].
Qed.

Lemma nonempty_batches_move allowed s s' e :
  Move allowed s s' e -> Forall (fun batch => batch <> []) (posted e).
Proof.
  intros Hm. destruct Hm as [w s _|r s _|s s' evs Hb Hev].
  - destruct (updateCoins_outcome w s); try rewrite commit_eq; cbn [snd];
      try constructor.
    + cbn [app posted]. destruct (is_full _ _); cbn [app posted];
        repeat constructor.
      destruct (heartbeatBuffer (eng s)); discriminate.
    + cbn [app posted]. destruct (is_full _ _); cbn [app posted];
        repeat constructor.
      destruct (heartbeatBuffer (eng s)); discriminate.
  - destruct (syncHeartbeats_view r (eng s)) as [[Hbuf ->]|[Hbuf ->]];
      cbn [snd posted]; repeat constructor. exact Hbuf.
  - destruct (session_events_silent evs Hev) as (-> & _). constructor.
Qed.

Lemma accounting_move allowed s s' e :
  Move allowed s s' e ->
  announced_change e <= balance s' - balance s
  /\ balance s' - balance s <= earnedToday s' - earnedToday s
  /\ 0 <= earnedToday s' - earnedToday s.
Proof.
  intros Hm. destruct Hm as [w s _|r s _|s s' evs Hb Hev].
  - assert (forall tab u domain ty c t ch,
               announced_change (snd (commit w s tab u domain ty c t ch)) = ch
               /\ balance (fst (commit w s tab u domain ty c t ch)) = c
               /\ earnedToday (fst (commit w s tab u domain ty c t ch)) = t)
      as Hc.
    { intros. rewrite commit_eq. cbn [fst snd]. repeat split.
      cbn [app announced_change]. rewrite announced_change_app.
      destruct (is_full _ _); cbn [announced_change]; lia. }
    destruct (updateCoins_outcome w s) as [|tab u domain _ _ _
                                           |tab u domain _ Hn
                                           |tab u domain _ Hn Hpos];
      cbn [fst snd blockSite announced_change]; try lia.
    + match goal with |- context [commit w s tab u domain ?ty ?c ?t ?ch] =>
        destruct (Hc tab u domain ty c t ch) as (-> & -> & ->) end. lia.
    + match goal with |- context [commit w s tab u domain ?ty ?c ?t ?ch] =>
        destruct (Hc tab u domain ty c t ch) as (-> & -> & ->) end.
      unfold JS.max. lia.
  - assert (announced_change (snd (syncHeartbeats r (eng s))) = 0) as ->.
    { unfold syncHeartbeats. now destruct (heartbeatBuffer (eng s)). }
    unfold balance, earnedToday. cbn [store]. lia.
  - destruct Hb as (_ & _ & _ & Hf & Ht).
    destruct (session_events_silent evs Hev) as (_ & -> & _).
    unfold balance, earnedToday. rewrite Hf, Ht. lia.
Qed.

Lemma announcement_move allowed s s' e :
  Move allowed s s' e ->
  match last_announced e with
  | Some c => balance s' = c
  | None => balance s' = balance s /\ earnedToday s' = earnedToday s
  end.
Proof.
  intros Hm. destruct Hm as [w s _|r s _|s s' evs Hb Hev].
  - assert (forall tab u domain ty c t ch,
               last_announced (snd (commit w s tab u domain ty c t ch)) = Some c
               /\ balance (fst (commit w s tab u domain ty c t ch)) = c) as Hc.
    { intros. rewrite commit_eq. cbn [fst snd]. split; [|reflexivity].
      cbn [app last_announced]. rewrite last_announced_app. reflexivity. }
    destruct (updateCoins_outcome w s) as [|tab u domain _ _ _
                                           |tab u domain _ Hn
                                           |tab u domain _ Hn Hpos];
      cbn [fst snd blockSite last_announced]; try (split; reflexivity).
    + match goal with |- context [commit w s tab u domain ?ty ?c ?t ?ch] =>
        destruct (Hc tab u domain ty c t ch) as (-> & ->) end. reflexivity.
    + match goal with |- context [commit w s tab u domain ?ty ?c ?t ?ch] =>
        destruct (Hc tab u domain ty c t ch) as (-> & ->) end. reflexivity.
  - assert (last_announced (snd (syncHeartbeats r (eng s))) = None) as ->.
    { unfold syncHeartbeats. now destruct (heartbeatBuffer (eng s)). }
    split; reflexivity.
  - destruct Hb as (_ & _ & _ & Hf & Ht).
    destruct (session_events_silent evs Hev) as (_ & _ & ->).
    unfold balance, earnedToday. now rewrite Hf, Ht.
Qed.

Lemma retention_move s s' e :
  Move (fun r => confirmed r = false) s s' e ->
  exists added, heartbeatBuffer (eng s') = heartbeatBuffer (eng s) ++ added.
Proof.
  intros Hm. destruct Hm as [w s Hr|r s Hr|s s' evs Hb Hev].
  - destruct (updateCoins_outcome w s); try rewrite commit_eq; cbn [fst];
      try (exists []; now rewrite app_nil_r).
    + rewrite Hr, andb_false_r. eexists. reflexivity.
    + rewrite Hr, andb_false_r. eexists. reflexivity.
  - exists []. rewrite app_nil_r.
    destruct (syncHeartbeats_view r (eng s)) as [[Hbuf ->]|[Hbuf ->]];
      cbn [fst eng]; [reflexivity|]. now rewrite Hr.
  - destruct Hb as (_ & Hbuf & _). exists []. now rewrite app_nil_r.
Qed.

Lemma constant_move allowed s s' e :
  Move allowed s s' e ->
  config_eq (eng s) (eng s') /\ uuid (eng s') = uuid (eng s).
Proof.
  intros Hm. destruct Hm as [w s _|r s _|s s' evs Hb Hev].
  - split; [apply updateCoins_config|].
    destruct (updateCoins_outcome w s); try rewrite commit_eq; reflexivity.
  - split; [apply syncHeartbeats_config|].
    destruct (syncHeartbeats_view r (eng s)) as [[Hbuf ->]|[Hbuf ->]];
      cbn [fst eng]; [reflexivity|]. now destruct (confirmed r).
  - destruct Hb as (Hc & _ & Hu & _). now split.
Qed.

(** X1. Every record in the heartbeat buffer, and in every batch posted,
    is for a productive site with [action] focus and a positive multiple of
    3 as [coinsChange], or for a distracting site with [action] distract and
    a negative multiple of 4: no run buffers a neutral record or a record
    without coin change, provided the buffer it starts from has none. *)
Theorem heartbeats_stay_well_formed (ops : list Op) (s : State) :
  Forall well_formed (heartbeatBuffer (eng s)) ->
  Forall well_formed (heartbeatBuffer (eng (fst (run ops s))))
  /\ Forall (Forall well_formed) (posted (snd (run ops s))).
Proof.
  apply (Moves_rel (fun _ => True)
           (fun s s' e =>
              Forall well_formed (heartbeatBuffer (eng s)) ->
              Forall well_formed (heartbeatBuffer (eng s'))
              /\ Forall (Forall well_formed) (posted e))).
  - intros s0 H. split; [exact H | constructor].
  - intros s1 s2 s3 e1 e2 H1 H2 H. destruct (H1 H) as [Hb1 Hp1].
    destruct (H2 Hb1) as [Hb2 Hp2]. split; [exact Hb2|].
    rewrite posted_app. apply Forall_app. now split.
  - intros s0 s' e Hm. now apply well_formed_move with (allowed := fun _ => True).
  - apply run_moves_any.
Qed.

Lemma heartbeats_stay_well_formed_witness :
  let s := monitoring 10 in
  let ops :=
    [Tick (visiting "https://github.com/" 15000 NetworkError);
     Tick (visiting "https://www.youtube.com/" 25000 NetworkError)] in
  Forall well_formed (heartbeatBuffer (eng s))
  /\ List.length (heartbeatBuffer (eng (fst (run ops s)))) = 2%nat
  /\ Forall well_formed (heartbeatBuffer (eng (fst (run ops s)))).
Proof.
  intros s ops.
  assert (H : Forall well_formed (heartbeatBuffer (eng s))) by constructor.
  split; [exact H|]. split; [reflexivity|].
  exact (proj1 (heartbeats_stay_well_formed ops s H)).
Defined.

(** X3. The engine never posts an empty batch of heartbeats, whatever the
    run: every batch in the trace holds at least one record. *)
Theorem posted_batches_are_nonempty (ops : list Op) (s : State) :
  Forall (fun batch => batch <> []) (posted (snd (run ops s))).
Proof.
  apply (Moves_rel (fun _ => True)
           (fun _ _ e => Forall (fun batch => batch <> []) (posted e))
           ) with (s := s) (s' := fst (run ops s)).
  - intros _. constructor.
  - intros _ _ _ e1 e2 H1 H2. rewrite posted_app. apply Forall_app. now split.
  - intros s0 s' e Hm.
    now apply nonempty_batches_move with (allowed := fun _ => True) (s := s0)
                                         (s' := s').
  - apply run_moves_any.
Qed.

Lemma announced_below_balance (ops : list Op) (s : State) :
  announced_change (snd (run ops s)) <= balance (fst (run ops s)) - balance s.
Proof.
  apply (Moves_rel (fun _ => True)
           (fun s s' e => announced_change e <= balance s' - balance s)).
  - intros s0. cbn [announced_change]. lia.
  - intros s1 s2 s3 e1 e2 H1 H2. rewrite announced_change_app. lia.
  - intros s0 s' e Hm.
    now apply (accounting_move (fun _ => True) s0 s' e Hm).
  - apply run_moves_any.
Qed.

(** X4. Over any run the [change] fields announced to the popup sum to at
    most the change of the stored balance (the floor at zero only ever
    raises it), the balance grows by at most what today's coins grow by,
    and today's coins never decrease. *)
Theorem coin_accounting (ops : list Op) (s : State) :
  let s' := fst (run ops s) in
  announced_change (snd (run ops s)) <= balance s' - balance s
  /\ balance s' - balance s <= earnedToday s' - earnedToday s
  /\ 0 <= earnedToday s' - earnedToday s.
Proof.
  apply (Moves_rel (fun _ => True)
           (fun s s' e =>
              announced_change e <= balance s' - balance s
              /\ balance s' - balance s <= earnedToday s' - earnedToday s
              /\ 0 <= earnedToday s' - earnedToday s)).
  - intros s0. cbn [announced_change]. lia.
  - intros s1 s2 s3 e1 e2 H1 H2. rewrite announced_change_app. lia.
  - intros s0 s' e Hm. now apply accounting_move with (allowed := fun _ => True).
  - apply run_moves_any.
Qed.

(** X5. What the popup is told is what is stored: after any run, the
    [coins] field of the last [coinsUpdated] message is the stored balance;
    and a run without such a message leaves balance and today's coins as
    they were. *)
Theorem last_announcement_is_balance (ops : list Op) (s : State) :
  match last_announced (snd (run ops s)) with
  | Some c => balance (fst (run ops s)) = c
  | None => balance (fst (run ops s)) = balance s
            /\ earnedToday (fst (run ops s)) = earnedToday s
  end.
Proof.
  apply (Moves_rel (fun _ => True)
           (fun s s' e =>
              match last_announced e with
              | Some c => balance s' = c
              | None => balance s' = balance s
                        /\ earnedToday s' = earnedToday s
              end)).
  - intros s0. now split.
  - intros s1 s2 s3 e1 e2 H1 H2. rewrite last_announced_app.
    destruct (last_announced e2); [exact H2|].
    destruct H2 as [Hb Ht]. destruct (last_announced e1).
    + congruence.
    + destruct H1. split; congruence.
  - intros s0 s' e Hm.
    now apply announcement_move with (allowed := fun _ => True).
  - apply run_moves_any.
Qed.

(** X6. While no heartbeat POST is confirmed, the buffer only grows at its
    end: after any such run the old buffer is a prefix of the new one, so
    nothing is lost or reordered. *)
Theorem unconfirmed_runs_only_append (ops : list Op) (s : State) :
  forallb (fun o => negb (sync_confirmed o)) ops = true ->
  exists added,
    heartbeatBuffer (eng (fst (run ops s)))
    = heartbeatBuffer (eng s) ++ added.
Proof.
  intros Hops.
  apply (Moves_rel (fun r => confirmed r = false)
           (fun s s' _ =>
              exists added,
                heartbeatBuffer (eng s') = heartbeatBuffer (eng s) ++ added)
           ) with (e := snd (run ops s)).
  - intros s0. exists []. now rewrite app_nil_r.
  - intros s1 s2 s3 _ _ [a1 H1] [a2 H2]. exists (a1 ++ a2).
    now rewrite H2, H1, app_assoc.
  - intros s0 s' e Hm. now apply retention_move with (e := e).
  - apply run_moves. apply Forall_forall. intros o Ho.
    rewrite forallb_forall in Hops. specialize (Hops o Ho).
    rewrite sync_confirmed_result in Hops.
    now destruct (confirmed (sync_result o)).
Qed.

Lemma unconfirmed_runs_only_append_witness :
  let s := monitoring 10 in
  forallb (fun o => negb (sync_confirmed o)) offline_ticks = true
  /\ List.length (heartbeatBuffer (eng (fst (run offline_ticks s)))) = 11%nat
  /\ exists added,
       heartbeatBuffer (eng (fst (run offline_ticks s)))
       = heartbeatBuffer (eng s) ++ added.
Proof.
  intros s. split; [reflexivity|]. split; [reflexivity|].
  apply (unconfirmed_runs_only_append offline_ticks s). reflexivity.
Defined.

(** X7. No handler changes the tick interval, the buffer limit, the two site
    lists or the [uuid] of the engine. *)
Theorem configuration_is_constant (ops : list Op) (s : State) :
  let e' := eng (fst (run ops s)) in
  coinUpdateInterval e' = coinUpdateInterval (eng s)
  /\ maxBufferSize e' = maxBufferSize (eng s)
  /\ productiveSites e' = productiveSites (eng s)
  /\ distractingSites e' = distractingSites (eng s)
  /\ uuid e' = uuid (eng s).
Proof.
  cbn zeta.
  enough (config_eq (eng s) (eng (fst (run ops s)))
          /\ uuid (eng (fst (run ops s))) = uuid (eng s)) as [(a & b & c & d) e]
    by (repeat split; assumption).
  apply (Moves_rel (fun _ => True)
           (fun s s' _ =>
              config_eq (eng s) (eng s') /\ uuid (eng s') = uuid (eng s))
           ) with (e := snd (run ops s)).
  - intros s0. split; [apply config_eq_refl | reflexivity].
  - intros s1 s2 s3 _ _ [H1 U1] [H2 U2].
    split; [now apply config_eq_trans with (eng s2) | congruence].
  - intros s0 s' e Hm.
    now apply constant_move with (allowed := fun _ => True) (e := e).
  - apply run_moves_any.
Qed.

(** ** Time *)

Lemma floor_div_below (a b : Z) : 0 < b -> a < b -> JS.floor_div a b <= 0.
Proof.
  intros Hb Ha. unfold JS.floor_div.
  apply Z.lt_succ_r. apply Z.div_lt_upper_bound; lia.
Qed.

Lemma floor_div_superadditive (a b i : Z) :
  0 < i -> JS.floor_div a i + JS.floor_div b i <= JS.floor_div (a + b) i.
Proof.
  intros Hi. unfold JS.floor_div. apply Z.div_le_lower_bound; [exact Hi|].
  pose proof (Z.mul_div_le a i Hi). pose proof (Z.mul_div_le b i Hi). lia.
Qed.

Lemma floor_div_monotone (a b i : Z) :
  0 < i -> a <= b -> JS.floor_div a i <= JS.floor_div b i.
Proof. intros. unfold JS.floor_div. now apply Z.div_le_mono. Qed.

Lemma observe_config (w : Env) (e e' : Engine) :
  config_eq e e' -> observe w e' = observe w e.
Proof.
  intros (_ & _ & Hp & Hd). unfold observe, getSiteType.
  now rewrite Hp, Hd.
Qed.

Lemma updateCoins_inactive (w : Env) (s : State) :
  isSessionActive (eng s) = false -> updateCoins w s = (s, []).
Proof. intros H. unfold updateCoins. now rewrite H. Qed.

(** X8. A tab change restarts the interval: when the evaluation it triggers
    reads the clock less than one interval after the handler did, the
    handler only sets [lastUpdateTime] to its own clock reading. No coin is
    earned or spent and the time since the previous evaluation is dropped. *)
Theorem handleTabChange_restarts_interval (t : Z) (w : Env) (s : State) :
  isSessionActive (eng s) = true ->
  0 < coinUpdateInterval (eng s) ->
  date_now w - t < coinUpdateInterval (eng s) ->
  handleTabChange t w s
  = ({| eng := set_lastUpdateTime (eng s) t; store := store s |}, []).
Proof.
  intros Ha Hi Hd. unfold handleTabChange. rewrite Ha. cbn [negb].
  apply updateCoins_no_tick. unfold intervalsElapsed.
  cbn [eng lastUpdateTime coinUpdateInterval set_lastUpdateTime].
  now apply floor_div_below.
Qed.

Lemma handleTabChange_restarts_interval_witness :
  let w := visiting "https://github.com/" 60001 NetworkError in
  let s := monitoring 10 in
  date_now w - 60000 < coinUpdateInterval (eng s)
  /\ lastUpdateTime (eng s) = 0
  /\ handleTabChange 60000 w s
     = ({| eng := set_lastUpdateTime (eng s) 60000; store := store s |}, []).
Proof.
  intros w s. split; [reflexivity|]. split; [reflexivity|].
  apply (handleTabChange_restarts_interval 60000 w s); reflexivity.
Defined.

Lemma step_idle (o : Op) (s : State) :
  isSessionActive (eng s) = false ->
  is_browsing o = true ->
  store (fst (step o s)) = store s
  /\ heartbeatBuffer (eng (fst (step o s))) = heartbeatBuffer (eng s)
  /\ lastUpdateTime (eng (fst (step o s))) = lastUpdateTime (eng s)
  /\ isSessionActive (eng (fst (step o s))) = false
  /\ snd (step o s) = [].
Proof.
  intros Ha Ho.
  destruct o as [w|id t w|id has_url t w|r|sid t r w|rsync rstop];
    try discriminate; cbn [step].
  - rewrite updateCoins_inactive by exact Ha. now repeat split.
  - unfold onActivated, handleTabChange.
    cbn [eng isSessionActive set_currentTabId]. rewrite Ha. now repeat split.
  - unfold onUpdated, handleTabChange. rewrite Ha.
    destruct (_ && has_url); now repeat split.
Qed.

(** X9. While no session is active, interval ticks and tab events change
    neither the storage, the heartbeat buffer nor [lastUpdateTime], do not
    activate the session, and make no call. *)
Theorem idle_engine_ignores_browsing (ops : list Op) (s : State) :
  isSessionActive (eng s) = false ->
  forallb is_browsing ops = true ->
  store (fst (run ops s)) = store s
  /\ heartbeatBuffer (eng (fst (run ops s))) = heartbeatBuffer (eng s)
  /\ lastUpdateTime (eng (fst (run ops s))) = lastUpdateTime (eng s)
  /\ isSessionActive (eng (fst (run ops s))) = false
  /\ snd (run ops s) = [].
Proof.
  revert s. induction ops as [|o ops IH]; intros s Ha Hops; cbn [run].
  - now repeat split.
  - cbn [forallb] in Hops. apply andb_true_iff in Hops as [Ho Hops].
    destruct (step_idle o s Ha Ho) as (H1 & H2 & H3 & H4 & H5).
    destruct (step o s) as [s1 evs1]. cbn [fst snd] in *.
    destruct (IH s1 H4 Hops) as (I1 & I2 & I3 & I4 & I5).
    destruct (run ops s1) as [s2 evs2]. cbn [fst snd] in *. subst.
    repeat split; congruence.
Qed.

Lemma idle_engine_ignores_browsing_witness :
  let s := {| eng := constructor 0;
              store := mkStorage (Some 10) (Some 0) (Some false) None |} in
  let ops :=
    [TabActivated 7 60000 (visiting "https://github.com/" 60000 NetworkError);
     Tick (visiting "https://github.com/" 65000 NetworkError);
     TabUpdated 7 true 70000
       (visiting "https://www.youtube.com/" 70000 NetworkError)] in
  isSessionActive (eng s) = false
  /\ forallb is_browsing ops = true
  /\ store (fst (run ops s)) = store s
  /\ snd (run ops s) = [].
Proof.
  intros s ops.
  destruct (idle_engine_ignores_browsing ops s eq_refl eq_refl)
    as (H1 & _ & _ & _ & H5).
  repeat split; assumption.
Defined.

(** X10. Time on neutral sites is not discarded: an evaluation that finds
    no tab, no URL or a neutral site leaves the state as it is,
    [lastUpdateTime] included, so the next evaluation on a productive site
    pays 3 coins for every whole interval since the last paid evaluation,
    the neutral time in between counted. *)
Theorem neutral_time_is_paid_later (w1 w2 : Env) (s : State) tab u domain :
  (forall tab1 u1 d1 ty,
      observe w1 (eng s) = Some (tab1, u1, d1, ty) -> ty = neutral) ->
  isSessionActive (eng s) = true ->
  observe w2 (eng s) = Some (tab, u, domain, productive) ->
  0 < intervalsElapsed w2 (eng s) ->
  updateCoins w1 s = (s, [])
  /\ balance (fst (updateCoins w2 (fst (updateCoins w1 s))))
     = balance s + intervalsElapsed w2 (eng s) * 3.
Proof.
  intros Hn Ha Ho Hpos.
  assert (H1 : updateCoins w1 s = (s, [])).
  { unfold updateCoins. rewrite Ha. cbn [negb].
    destruct (observe w1 (eng s)) as [[[[tab1 u1] d1] ty]|] eqn:E;
      [|reflexivity].
    now rewrite (Hn _ _ _ _ eq_refl). }
  split; [exact H1|]. rewrite H1. cbn [fst].
  rewrite (updateCoins_productive w2 s tab u domain) by assumption.
  apply commit_balance.
Qed.

Lemma neutral_time_is_paid_later_witness :
  let w1 := visiting "https://example.org/" 30000 NetworkError in
  let w2 := visiting "https://github.com/" 60000 NetworkError in
  let s := monitoring 10 in
  observe w1 (eng s)
  = Some (mkTab 7 (Some "https://example.org/"%string),
          "https://example.org/"%string, "example.org"%string, neutral)
  /\ intervalsElapsed w2 (eng s) = 12
  /\ balance (fst (updateCoins w2 (fst (updateCoins w1 s)))) = 46.
Proof.
  intros w1 w2 s. split; [reflexivity|]. split; [reflexivity|].
  assert (Hn : forall tab1 u1 d1 ty,
             observe w1 (eng s) = Some (tab1, u1, d1, ty) -> ty = neutral)
    by (intros tab1 u1 d1 ty H; vm_compute in H; congruence).
  exact (proj2 (neutral_time_is_paid_later w1 w2 s
                  (mkTab 7 (Some "https://github.com/"%string))
                  "https://github.com/" "github.com"
                  Hn eq_refl eq_refl eq_refl)).
Defined.

(** X11. Evaluating more often never pays more: on productive sites, an
    evaluation at [t1] followed by one at [t2 >= t1] leaves at most the
    balance that the evaluation at [t2] alone would leave, because each
    evaluation drops the part of the elapsed time beyond whole intervals. *)
Theorem evaluating_more_often_earns_no_more (w1 w2 : Env) (s : State)
    tab1 u1 d1 tab2 u2 d2 :
  isSessionActive (eng s) = true ->
  0 < coinUpdateInterval (eng s) ->
  observe w1 (eng s) = Some (tab1, u1, d1, productive) ->
  observe w2 (eng s) = Some (tab2, u2, d2, productive) ->
  date_now w1 <= date_now w2 ->
  balance (fst (updateCoins w2 (fst (updateCoins w1 s))))
  <= balance (fst (updateCoins w2 s)).
Proof.
  intros Ha Hi Ho1 Ho2 Ht.
  destruct (Z_lt_le_dec 0 (intervalsElapsed w1 (eng s))) as [Hn1|Hn1];
    [|rewrite (updateCoins_no_tick w1 s Hn1); cbn [fst]; lia].
  pose proof (floor_div_monotone (date_now w1 - lastUpdateTime (eng s))
                (date_now w2 - lastUpdateTime (eng s))
                (coinUpdateInterval (eng s)) Hi ltac:(lia)) as Hmono.
  pose proof (floor_div_superadditive (date_now w1 - lastUpdateTime (eng s))
                (date_now w2 - date_now w1)
                (coinUpdateInterval (eng s)) Hi) as Hsup.
  replace (date_now w1 - lastUpdateTime (eng s) + (date_now w2 - date_now w1))
    with (date_now w2 - lastUpdateTime (eng s)) in Hsup by lia.
  fold (intervalsElapsed w1 (eng s)) in Hmono, Hsup.
  fold (intervalsElapsed w2 (eng s)) in Hmono, Hsup.
  rewrite (updateCoins_productive w2 s tab2 u2 d2) by (auto; lia).
  rewrite commit_balance.
  rewrite (updateCoins_productive w1 s tab1 u1 d1) by assumption.
  rewrite commit_eq. cbn [fst].
  match goal with |- context [updateCoins w2 ?x] => set (s1 := x) end.
  assert (Hn2 : intervalsElapsed w2 (eng s1)
                = JS.floor_div (date_now w2 - date_now w1)
                    (coinUpdateInterval (eng s))) by reflexivity.
  assert (Hb1 : balance s1 = balance s + intervalsElapsed w1 (eng s) * 3)
    by reflexivity.
  destruct (Z_lt_le_dec 0 (intervalsElapsed w2 (eng s1))) as [Hp|Hp].
  - rewrite (updateCoins_productive w2 s1 tab2 u2 d2); [|exact Ha| |exact Hp].
    + rewrite commit_balance. lia.
    + rewrite <- Ho2. apply observe_config. repeat split.
  - rewrite (updateCoins_no_tick w2 s1 Hp). cbn [fst]. lia.
Qed.

Lemma evaluating_more_often_earns_no_more_witness :
  let w1 := visiting "https://github.com/" 9000 NetworkError in
  let w2 := visiting "https://github.com/" 18000 NetworkError in
  let s := monitoring 10 in
  date_now w1 <= date_now w2
  /\ balance (fst (updateCoins w2 (fst (updateCoins w1 s)))) = 16
  /\ balance (fst (updateCoins w2 s)) = 19
  /\ balance (fst (updateCoins w2 (fst (updateCoins w1 s))))
     <= balance (fst (updateCoins w2 s)).
Proof.
  intros w1 w2 s. split; [discriminate|]. split; [reflexivity|].
  split; [reflexivity|].
  apply (evaluating_more_often_earns_no_more w1 w2 s
           (mkTab 7 (Some "https://github.com/"%string))
           "https://github.com/" "github.com"
           (mkTab 7 (Some "https://github.com/"%string))
           "https://github.com/" "github.com");
    try reflexivity. discriminate.
Defined.

(** ** Sessions *)

(** X12. Starting a session marks it active, records the new session id
    and restarts the interval; as long as the first evaluation reads the
    clock less than one interval later, no coin or heartbeat changes and
    the two session calls are all that is made. When the start notification
    throws, the interval timer is not started although the session is
    active. *)
Theorem startSession_effect (sid : string) (t : Z) (r : ApiResult) (w : Env)
    (s : State) :
  0 < coinUpdateInterval (eng s) ->
  date_now w - t < coinUpdateInterval (eng s) ->
  let s' := fst (startSession sid t r w s) in
  isSessionActive (eng s') = true
  /\ sessionId (eng s') = Some sid
  /\ lastUpdateTime (eng s') = t
  /\ updateTimer (eng s')
     = match r with NetworkError => updateTimer (eng s) | Json _ => true end
  /\ store s' = set_session (store s) true (Some t)
  /\ heartbeatBuffer (eng s') = heartbeatBuffer (eng s)
  /\ snd (startSession sid t r w s)
     = [StorageSetSession true (Some t);
        PostSessionStart (uuid (eng s)) (Some sid) t].
Proof.
  intros Hi Hd. unfold startSession, startMonitoring.
  destruct r; cbn [fst snd].
  - repeat split.
  - rewrite updateCoins_no_tick.
    + cbn [fst snd]. rewrite app_nil_r. repeat split.
    + unfold intervalsElapsed.
      cbn [eng lastUpdateTime coinUpdateInterval set_lastUpdateTime
           set_sessionId set_isSessionActive].
      now apply floor_div_below.
Qed.

Lemma startSession_effect_witness :
  let s := {| eng := constructor 0;
              store := mkStorage (Some 10) (Some 0) (Some false) None |} in
  let w := visiting "https://github.com/" 90001 NetworkError in
  let s' := fst (startSession "session-2" 90000 NetworkError w s) in
  date_now w - 90000 < coinUpdateInterval (eng s)
  /\ isSessionActive (eng s') = true
  /\ updateTimer (eng s') = false
  /\ sessionActive (store s') = Some true.
Proof.
  intros s w s'.
  destruct (startSession_effect "session-2" 90000 NetworkError w s
              eq_refl eq_refl) as (H1 & _ & _ & H4 & H5 & _).
  split; [reflexivity|]. split; [exact H1|]. split; [exact H4|].
  subst s'. now rewrite H5.
Defined.

(** X13. Stopping a session always deactivates the engine and clears the
    timer, whatever the backend answers; it never touches the coins; the
    buffer is emptied exactly by a confirmed final flush and otherwise
    kept. When the stop notification throws, the session id is kept and the
    storage is not written. *)
Theorem stopSession_effect (rsync rstop : ApiResult) (s : State) :
  let s' := fst (stopSession rsync rstop s) in
  isSessionActive (eng s') = false
  /\ updateTimer (eng s') = false
  /\ balance s' = balance s
  /\ earnedToday s' = earnedToday s
  /\ heartbeatBuffer (eng s')
     = (if confirmed rsync then [] else heartbeatBuffer (eng s))
  /\ sessionId (eng s')
     = match rstop with NetworkError => sessionId (eng s) | Json _ => None end
  /\ store s'
     = match rstop with
       | NetworkError => store s
       | Json _ => set_session (store s) false None
       end.
Proof.
  cbn zeta.
  assert (H : isSessionActive (eng (fst (stopSession rsync rstop s))) = false
          /\ updateTimer (eng (fst (stopSession rsync rstop s))) = false
          /\ store (fst (stopSession rsync rstop s))
             = match rstop with
               | NetworkError => store s
               | Json _ => set_session (store s) false None
               end
          /\ heartbeatBuffer (eng (fst (stopSession rsync rstop s)))
             = (if confirmed rsync then [] else heartbeatBuffer (eng s))
          /\ sessionId (eng (fst (stopSession rsync rstop s)))
             = match rstop with
               | NetworkError => sessionId (eng s)
               | Json _ => None
               end).
  { unfold stopSession.
    match goal with |- context [syncHeartbeats rsync ?x] =>
      destruct (syncHeartbeats_view rsync x) as [[Hbuf ->]|[Hbuf ->]] end;
      cbn [heartbeatBuffer set_updateTimer set_isSessionActive] in Hbuf.
    - destruct rstop; cbn [fst eng store]; repeat split;
        cbn [heartbeatBuffer set_updateTimer set_isSessionActive set_sessionId];
        rewrite Hbuf; now destruct (confirmed rsync).
    - destruct rstop, (confirmed rsync); cbn [fst eng store]; repeat split. }
  destruct H as (Ha & Ht & Hs & Hb & Hi).
  split; [exact Ha|]. split; [exact Ht|].
  split; [unfold balance; rewrite Hs; now destruct rstop|].
  split; [unfold earnedToday; rewrite Hs; now destruct rstop|].
  split; [exact Hb|]. split; [exact Hi|]. exact Hs.
Qed.

(** X14. Retrying a flush: after a confirmed flush a further flush sends
    nothing; after a flush that was not confirmed the engine is unchanged,
    so the next flush posts the very same batch again. *)
Theorem flush_retry (r1 r2 : ApiResult) (e : Engine) :
  (confirmed r1 = true ->
   syncHeartbeats r2 (fst (syncHeartbeats r1 e))
   = (fst (syncHeartbeats r1 e), []))
  /\ (confirmed r1 = false ->
      fst (syncHeartbeats r1 e) = e
      /\ snd (syncHeartbeats r2 (fst (syncHeartbeats r1 e)))
         = snd (syncHeartbeats r1 e)).
Proof.
  split; intros Hr.
  - pose proof (syncHeartbeats_buffer_confirmed r1 e Hr) as Hb.
    unfold syncHeartbeats at 1. now rewrite Hb.
  - assert (He : fst (syncHeartbeats r1 e) = e).
    { destruct (syncHeartbeats_view r1 e) as [[Hbuf ->]|[Hbuf ->]];
        cbn [fst]; [reflexivity | now rewrite Hr]. }
    split; [exact He|]. rewrite He.
    destruct (syncHeartbeats_view r1 e) as [[Hbuf H1]|[Hbuf H1]];
      destruct (syncHeartbeats_view r2 e) as [[Hbuf' H2]|[Hbuf' H2]];
      try contradiction; now rewrite H1, H2.
Qed.

(** ** Start-up *)

(** X15. The [uuid] is generated once: with a non-empty fresh value, a
    second [ensureUUID] (with whatever fresh value) returns the [uuid] of
    the first and leaves the stored key alone; a stored non-empty key is
    always the one used. *)
Theorem ensureUUID_generates_once (fresh1 fresh2 : string)
    (stored : option string) :
  fresh1 <> ""%string ->
  ensureUUID fresh2 (snd (ensureUUID fresh1 stored)) = ensureUUID fresh1 stored
  /\ fst (ensureUUID fresh1 stored) = snd (ensureUUID fresh1 stored)
  /\ (falsy_string stored = false -> fst (ensureUUID fresh1 stored) = stored).
Proof.
  intros Hf. unfold ensureUUID.
  destruct (falsy_string stored) eqn:E; cbn [fst snd].
  - assert (falsy_string (Some fresh1) = false) as ->
      by (cbn; now apply String.eqb_neq).
    repeat split. discriminate.
  - rewrite E. repeat split.
Qed.

Lemma ensureUUID_generates_once_witness :
  "uuid-1"%string <> ""%string
  /\ ensureUUID "uuid-2" (snd (ensureUUID "uuid-1" None))
     = (Some "uuid-1"%string, Some "uuid-1"%string).
Proof.
  assert (H : "uuid-1"%string <> ""%string) by discriminate.
  split; [exact H|].
  exact (proj1 (ensureUUID_generates_once "uuid-1" "uuid-2" None H)).
Defined.

Lemma initialize_balance (fresh : string) (stored : option string) (w : Env)
    (s : State) :
  focusCoins (store s) = None \/ 0 <= balance s ->
  0 <= balance (fst (fst (initialize fresh stored w s))).
Proof.
  intros H. unfold initialize, startMonitoring.
  destruct (ensureUUID fresh stored) as [u stored'].
  match goal with |- context [updateCoins w ?x] => set (s1 := x) end.
  assert (H1 : 0 <= balance s1).
  { unfold balance in *. cbn [store s1].
    destruct (focusCoins (store s)) eqn:E; cbn [focusCoins JS.or0]; [|lia].
    rewrite E. destruct H as [H|H]; [discriminate | exact H]. }
  destruct (match sessionActive (store s) with Some b => b | None => false end).
  - pose proof (updateCoins_balance w s1 H1) as H2.
    destruct (updateCoins w s1) as [s2 evs]. exact H2.
  - exact H1.
Qed.

(** X16. A first start (no [focusCoins] key yet) seeds the storage with 10
    coins and no coins earned today, and from there the balance stays
    non-negative over every run; unless the storage already said the session
    is active, the engine starts inactive with exactly the seeded values,
    and the calls made are the storage write of the [uuid], when one is
    generated, followed by the storage write of the seed, and no other. *)
Theorem first_start_seeds_ten_coins (fresh : string) (stored : option string)
    (w : Env) (s : State) :
  focusCoins (store s) = None ->
  let s0 := fst (fst (initialize fresh stored w s)) in
  (sessionActive (store s) <> Some true ->
   balance s0 = 10 /\ earnedToday s0 = 0 /\ isSessionActive (eng s0) = false
   /\ snd (initialize fresh stored w s)
      = (if falsy_string stored then [StorageSetUuid fresh] else [])
        ++ [StorageSeed 10 0 0 false])
  /\ forall ops, 0 <= balance (fst (run ops s0)).
Proof.
  intros Hf s0. split.
  - intros Hna. subst s0. unfold initialize.
    destruct (ensureUUID fresh stored) as [u stored'].
    rewrite Hf.
    destruct (sessionActive (store s)) as [[|]|]; [congruence| |];
      cbn [fst snd]; now repeat split.
  - intros ops. apply run_balance. apply initialize_balance. now left.
Qed.

Lemma first_start_seeds_ten_coins_witness :
  let s := {| eng := constructor 0; store := mkStorage None None None None |} in
  let w := visiting "https://github.com/" 1 NetworkError in
  let s0 := fst (fst (initialize "uuid-1" None w s)) in
  focusCoins (store s) = None
  /\ balance s0 = 10
  /\ uuid (eng s0) = Some "uuid-1"%string
  /\ snd (initialize "uuid-1" None w s)
     = [StorageSetUuid "uuid-1"; StorageSeed 10 0 0 false]
  /\ 0 <= balance (fst (run offline_ticks s0)).
Proof.
  intros s w s0.
  destruct (first_start_seeds_ten_coins "uuid-1" None w s eq_refl)
    as [H1 H2].
  split; [reflexivity|]. split; [apply H1; discriminate|].
  split; [reflexivity|].
  split; [exact (proj2 (proj2 (proj2 (H1 ltac:(discriminate)))))|]. apply H2.
Defined.

Lemma updateCoins_sessionless (w : Env) (s : State) :
  sessionId (eng s) = None ->
  Forall (fun hb => hb_sessionId hb = None) (heartbeatBuffer (eng s)) ->
  sessionId (eng (fst (updateCoins w s))) = None
  /\ Forall (fun hb => hb_sessionId hb = None)
       (heartbeatBuffer (eng (fst (updateCoins w s)))).
Proof.
  intros Hs Hb.
  destruct (updateCoins_outcome w s); try rewrite commit_eq; cbn [fst];
    try (split; assumption).
  - split; [exact Hs|].
    cbn [eng heartbeatBuffer set_lastUpdateTime set_heartbeatBuffer].
    destruct (_ && _); [constructor|].
    apply Forall_app. split; [exact Hb|]. constructor; [exact Hs|constructor].
  - split; [exact Hs|].
    cbn [eng heartbeatBuffer set_lastUpdateTime set_heartbeatBuffer].
    destruct (_ && _); [constructor|].
    apply Forall_app. split; [exact Hb|]. constructor; [exact Hs|constructor].
Qed.

Lemma syncHeartbeats_sessionless (r : ApiResult) (e : Engine) :
  sessionId e = None ->
  Forall (fun hb => hb_sessionId hb = None) (heartbeatBuffer e) ->
  sessionId (fst (syncHeartbeats r e)) = None
  /\ Forall (fun hb => hb_sessionId hb = None)
       (heartbeatBuffer (fst (syncHeartbeats r e))).
Proof.
  intros Hs Hb.
  destruct (syncHeartbeats_view r e) as [[Hbuf ->]|[Hbuf ->]]; cbn [fst];
    [now split|].
  destruct (confirmed r); split; try assumption. constructor.
Qed.

Lemma step_sessionless (o : Op) (s : State) :
  is_start o = false ->
  sessionId (eng s) = None ->
  Forall (fun hb => hb_sessionId hb = None) (heartbeatBuffer (eng s)) ->
  sessionId (eng (fst (step o s))) = None
  /\ Forall (fun hb => hb_sessionId hb = None)
       (heartbeatBuffer (eng (fst (step o s)))).
Proof.
  intros Ho Hs Hb.
  assert (Htab : forall t w s0,
             sessionId (eng s0) = None ->
             Forall (fun hb => hb_sessionId hb = None)
               (heartbeatBuffer (eng s0)) ->
             sessionId (eng (fst (handleTabChange t w s0))) = None
             /\ Forall (fun hb => hb_sessionId hb = None)
                  (heartbeatBuffer (eng (fst (handleTabChange t w s0))))).
  { intros t w s0 Hs0 Hb0. unfold handleTabChange.
    destruct (isSessionActive (eng s0)); cbn [negb fst]; [|now split].
    now apply updateCoins_sessionless. }
  destruct o as [w|id t w|id has_url t w|r|sid t r w|rsync rstop];
    try discriminate; cbn [step].
  - now apply updateCoins_sessionless.
  - unfold onActivated. now apply Htab.
  - unfold onUpdated. destruct (_ && has_url); [now apply Htab | now split].
  - pose proof (syncHeartbeats_sessionless r (eng s) Hs Hb) as H.
    destruct (syncHeartbeats r (eng s)). exact H.
  - unfold stopSession.
    match goal with |- context [syncHeartbeats rsync ?x] =>
      pose proof (syncHeartbeats_sessionless rsync x Hs Hb) as H;
      destruct (syncHeartbeats rsync x) as [e2 sent] end.
    cbn [fst] in H. destruct rstop; cbn [fst eng]; [exact H|].
    split; [reflexivity | exact (proj2 H)].
Qed.

Lemma run_sessionless (ops : list Op) (s : State) :
  forallb (fun o => negb (is_start o)) ops = true ->
  sessionId (eng s) = None ->
  Forall (fun hb => hb_sessionId hb = None) (heartbeatBuffer (eng s)) ->
  Forall (fun hb => hb_sessionId hb = None)
    (heartbeatBuffer (eng (fst (run ops s)))).
Proof.
  revert s. induction ops as [|o ops IH]; intros s Hops Hs Hb; cbn [run].
  - exact Hb.
  - cbn [forallb] in Hops. apply andb_true_iff in Hops as [Ho Hops].
    apply negb_true_iff in Ho.
    destruct (step_sessionless o s Ho Hs Hb) as [Hs1 Hb1].
    destruct (step o s) as [s1 evs1]. cbn [fst] in *.
    specialize (IH s1 Hops Hs1 Hb1). destruct (run ops s1). exact IH.
Qed.

(** X17. A session resumed at start-up has no session id: when the
    storage says the session is active, [initialize] on the engine the
    constructor built starts monitoring with [sessionId] still null, and
    until a new session is started every heartbeat the engine buffers
    carries a null [sessionId]. *)
Theorem resumed_session_has_no_id (fresh : string) (stored : option string)
    (w : Env) (t0 : Z) (st : Storage) (ops : list Op) :
  sessionActive st = Some true ->
  forallb (fun o => negb (is_start o)) ops = true ->
  let s0 :=
    fst (fst (initialize fresh stored w {| eng := constructor t0; store := st |}))
  in
  isSessionActive (eng s0) = true
  /\ updateTimer (eng s0) = true
  /\ sessionId (eng s0) = None
  /\ Forall (fun hb => hb_sessionId hb = None)
       (heartbeatBuffer (eng (fst (run ops s0)))).
Proof.
  intros Ha Hops s0.
  assert (H : isSessionActive (eng s0) = true /\ updateTimer (eng s0) = true
              /\ sessionId (eng s0) = None
              /\ Forall (fun hb => hb_sessionId hb = None)
                   (heartbeatBuffer (eng s0))).
  { subst s0. unfold initialize, startMonitoring.
    destruct (ensureUUID fresh stored) as [u stored'].
    cbn [store eng]. rewrite Ha.
    match goal with |- context [updateCoins w ?x] => set (s1 := x) end.
    assert (H1 : sessionId (eng s1) = None) by reflexivity.
    assert (H2 : Forall (fun hb => hb_sessionId hb = None)
                   (heartbeatBuffer (eng s1))) by constructor.
    destruct (updateCoins_sessionless w s1 H1 H2) as [H3 H4].
    assert (H5 : isSessionActive (eng (fst (updateCoins w s1))) = true).
    { destruct (updateCoins_outcome w s1); try rewrite commit_eq; reflexivity. }
    destruct (updateCoins w s1) as [s2 evs]. cbn [fst eng] in *.
    repeat split; assumption. }
  destruct H as (H1 & H2 & H3 & H4).
  repeat split; try assumption. now apply run_sessionless.
Qed.

Lemma resumed_session_has_no_id_witness :
  let st := mkStorage (Some 10) (Some 0) (Some true) (Some 0) in
  let w := visiting "https://github.com/" 1 NetworkError in
  let ops := [Tick (visiting "https://github.com/" 5000 NetworkError)] in
  let s0 :=
    fst (fst (initialize "uuid-1" (Some "uuid-0"%string) w
                {| eng := constructor 0; store := st |})) in
  sessionActive st = Some true
  /\ forallb (fun o => negb (is_start o)) ops = true
  /\ List.length (heartbeatBuffer (eng (fst (run ops s0)))) = 1%nat
  /\ Forall (fun hb => hb_sessionId hb = None)
       (heartbeatBuffer (eng (fst (run ops s0)))).
Proof.
  intros st w ops s0.
  destruct (resumed_session_has_no_id "uuid-1" (Some "uuid-0"%string) w 0 st
              ops eq_refl eq_refl) as (_ & _ & _ & H).
  repeat split. exact H.
Defined.

(** ** More on the hostname *)

Lemma append_assoc (a b c : string) :
  ((a ++ b) ++ c = a ++ (b ++ c))%string.
Proof. induction a as [|x a IH]; cbn; [reflexivity | now rewrite IH]. Qed.

Lemma length_append (a b : string) :
  String.length (a ++ b) = (String.length a + String.length b)%nat.
Proof. induction a as [|x a IH]; cbn; [reflexivity | now rewrite IH]. Qed.

Lemma startsWith_within (p x y : string) :
  (String.length p <= String.length x)%nat ->
  JS.startsWith p (x ++ y) = JS.startsWith p x.
Proof.
  revert x. induction p as [|a p IH]; intros x Hl; [reflexivity|].
  destruct x as [|b x]; cbn in Hl; [lia|].
  cbn [append JS.startsWith]. rewrite IH by lia. reflexivity.
Qed.

(** X18. What the normalisation does in general: a hostname in which
    [www.] does not occur is left as it is, and otherwise exactly the first
    occurrence of [www.] is cut out, the text before and after it kept. *)
Theorem normalize_cuts_first_www (pre post : string) :
  JS.includes (pre ++ "www") "www." = false ->
  normalize (pre ++ "www." ++ post) = (pre ++ post)%string
  /\ (JS.includes pre "www." = false -> normalize pre = pre).
Proof.
  intros Hn. split.
  - unfold normalize. induction pre as [|c pre IH]; [reflexivity|].
    cbn [append] in Hn. rewrite includes_cons in Hn.
    destruct (JS.startsWith "www." (String c (pre ++ "www"))) eqn:E;
      [discriminate|].
    assert (Heq : (String c (pre ++ "www." ++ post)
                   = String c (pre ++ "www") ++ ("." ++ post))%string)
      by (cbn [append]; rewrite append_assoc; reflexivity).
    assert (Hs : JS.startsWith "www." (String c (pre ++ "www." ++ post))
                 = false).
    { rewrite Heq, startsWith_within; [exact E|].
      cbn [String.length]. rewrite length_append. cbn. lia. }
    change (String c pre ++ "www." ++ post)%string
      with (String c (pre ++ "www." ++ post)).
    rewrite replace_cons, Hs, (IH Hn). reflexivity.
  - apply normalize_without_www.
Qed.

Lemma normalize_cuts_first_www_witness :
  JS.includes ("news.ww" ++ "www") "www." = false
  /\ normalize "news.wwwww.example.com" = "news.wwexample.com"%string.
Proof.
  assert (H : JS.includes ("news.ww" ++ "www") "www." = false) by reflexivity.
  split; [exact H|].
  exact (proj1 (normalize_cuts_first_www "news.ww" "example.com" H)).
Defined.

(** X19. Evaluating more often never costs more: on distracting sites, an
    evaluation at [t1] followed by one at [t2 >= t1] leaves at least the
    balance that the evaluation at [t2] alone would leave. *)
Theorem evaluating_more_often_costs_no_more (w1 w2 : Env) (s : State)
    tab1 u1 d1 tab2 u2 d2 :
  isSessionActive (eng s) = true ->
  0 < coinUpdateInterval (eng s) ->
  observe w1 (eng s) = Some (tab1, u1, d1, distracting) ->
  observe w2 (eng s) = Some (tab2, u2, d2, distracting) ->
  date_now w1 <= date_now w2 ->
  balance (fst (updateCoins w2 s))
  <= balance (fst (updateCoins w2 (fst (updateCoins w1 s)))).
Proof.
  intros Ha Hi Ho1 Ho2 Ht.
  destruct (Z_lt_le_dec 0 (intervalsElapsed w1 (eng s))) as [Hn1|Hn1];
    [|rewrite (updateCoins_no_tick w1 s Hn1); cbn [fst]; lia].
  destruct (Z_lt_le_dec 0 (balance s)) as [Hb|Hb];
    [|rewrite (updateCoins_depleted w1 s tab1 u1 d1) by assumption;
      cbn [fst]; lia].
  pose proof (floor_div_monotone (date_now w1 - lastUpdateTime (eng s))
                (date_now w2 - lastUpdateTime (eng s))
                (coinUpdateInterval (eng s)) Hi ltac:(lia)) as Hmono.
  pose proof (floor_div_superadditive (date_now w1 - lastUpdateTime (eng s))
                (date_now w2 - date_now w1)
                (coinUpdateInterval (eng s)) Hi) as Hsup.
  replace (date_now w1 - lastUpdateTime (eng s) + (date_now w2 - date_now w1))
    with (date_now w2 - lastUpdateTime (eng s)) in Hsup by lia.
  fold (intervalsElapsed w1 (eng s)) in Hmono, Hsup.
  fold (intervalsElapsed w2 (eng s)) in Hmono, Hsup.
  rewrite (updateCoins_distracting w2 s tab2 u2 d2) by (auto; lia).
  rewrite commit_balance.
  rewrite (updateCoins_distracting w1 s tab1 u1 d1) by assumption.
  rewrite commit_eq. cbn [fst].
  match goal with |- context [updateCoins w2 ?x] => set (s1 := x) end.
  assert (Hn2 : intervalsElapsed w2 (eng s1)
                = JS.floor_div (date_now w2 - date_now w1)
                    (coinUpdateInterval (eng s))) by reflexivity.
  assert (Hb1 : balance s1
                = JS.max 0 (balance s + intervalsElapsed w1 (eng s) * -4))
    by reflexivity.
  assert (Ho : observe w2 (eng s1) = Some (tab2, u2, d2, distracting))
    by (rewrite <- Ho2; apply observe_config; repeat split).
  unfold JS.max in *.
  destruct (Z_lt_le_dec 0 (intervalsElapsed w2 (eng s1))) as [Hp|Hp];
    [|rewrite (updateCoins_no_tick w2 s1 Hp); cbn [fst]; lia].
  destruct (Z_lt_le_dec 0 (balance s1)) as [Hq|Hq].
  - rewrite (updateCoins_distracting w2 s1 tab2 u2 d2) by assumption.
    rewrite commit_balance. unfold JS.max. lia.
  - rewrite (updateCoins_depleted w2 s1 tab2 u2 d2) by assumption.
    cbn [fst]. lia.
Qed.

Lemma evaluating_more_often_costs_no_more_witness :
  let w1 := visiting "https://www.youtube.com/" 9000 NetworkError in
  let w2 := visiting "https://www.youtube.com/" 18000 NetworkError in
  let s := monitoring 10 in
  date_now w1 <= date_now w2
  /\ balance (fst (updateCoins w2 s)) = 0
  /\ balance (fst (updateCoins w2 (fst (updateCoins w1 s)))) = 2
  /\ balance (fst (updateCoins w2 s))
     <= balance (fst (updateCoins w2 (fst (updateCoins w1 s)))).
Proof.
  intros w1 w2 s. split; [discriminate|]. split; [reflexivity|].
  split; [reflexivity|].
  apply (evaluating_more_often_costs_no_more w1 w2 s
           (mkTab 7 (Some "https://www.youtube.com/"%string))
           "https://www.youtube.com/" "youtube.com"
           (mkTab 7 (Some "https://www.youtube.com/"%string))
           "https://www.youtube.com/" "youtube.com");
    try reflexivity. discriminate.
Defined.

(** ** Aggregation by day *)

Lemma lookup_upsert (key k : Z) (hb : Heartbeat) (days : list (Z * DayData)) :
  lookup_day key (upsert_day k hb days)
  = if k =? key
    then Some (track hb match lookup_day k days with
                        | Some d => d
                        | None => emptyDay
                        end)
    else lookup_day key days.
Proof.
  induction days as [|[k' d] days IH]; cbn [upsert_day lookup_day].
  - reflexivity.
  - destruct (k' =? k) eqn:E; cbn [lookup_day].
    + apply Z.eqb_eq in E. subst k'. now destruct (k =? key).
    + destruct (k' =? key) eqn:E'; [|exact IH].
      apply Z.eqb_eq in E'. subst k'.
      rewrite Z.eqb_sym in E. now rewrite E.
Qed.

Lemma groupByDate_snoc (l : list Heartbeat) (hb : Heartbeat) :
  groupByDate (l ++ [hb]) = upsert_day (dateKey hb) hb (groupByDate l).
Proof. unfold groupByDate. now rewrite fold_left_app. Qed.

Lemma summary_snoc (l : list Heartbeat) (hb : Heartbeat) :
  summary (l ++ [hb]) = track hb (summary l).
Proof. unfold summary. now rewrite fold_left_app. Qed.

Lemma on_day_snoc (key : Z) (l : list Heartbeat) (hb : Heartbeat) :
  on_day key (l ++ [hb])
  = on_day key l ++ (if dateKey hb =? key then [hb] else []).
Proof. unfold on_day. rewrite filter_app. reflexivity. Qed.

Lemma groupByDate_lookup (heartbeats : list Heartbeat) (key : Z) :
  lookup_day key (groupByDate heartbeats)
  = match on_day key heartbeats with
    | [] => None
    | _ :: _ => Some (summary (on_day key heartbeats))
    end.
Proof.
  induction heartbeats as [|hb l IH] using rev_ind; [reflexivity|].
  rewrite groupByDate_snoc, lookup_upsert, on_day_snoc.
  destruct (dateKey hb =? key) eqn:E.
  - apply Z.eqb_eq in E. rewrite E, IH, summary_snoc.
    destruct (on_day key l); reflexivity.
  - rewrite app_nil_r. exact IH.
Qed.

Lemma count_type_snoc (ty : SiteType) (l : list Heartbeat) (hb : Heartbeat) :
  count_type ty (l ++ [hb])
  = count_type ty l + count_type ty [hb].
Proof.
  unfold count_type. rewrite filter_app, length_app. lia.
Qed.

Lemma set_add_length (x : option string) (set : list (option string)) :
  (List.length (set_add x set) <= S (List.length set))%nat.
Proof.
  unfold set_add. destruct (existsb _ set); [lia|].
  rewrite length_app. cbn. lia.
Qed.

Lemma summary_totals (l : list Heartbeat) :
  coinsEarned (summary l) - coinsSpent (summary l) = totalCoinsChange l
  /\ 0 <= coinsEarned (summary l)
  /\ 0 <= coinsSpent (summary l)
  /\ totalFocusTime (summary l) = productiveTime (summary l)
  /\ productiveTime (summary l) = 5 * count_type productive l
  /\ distractingTime (summary l) = 5 * count_type distracting l
  /\ (List.length (sessionsCount (summary l)) <= List.length l)%nat.
Proof.
  induction l as [|hb l IH] using rev_ind.
  - cbn. repeat split; lia.
  - destruct IH as (H1 & H2 & H3 & H4 & H5 & H6 & H7).
    rewrite summary_snoc, totalCoinsChange_app, !count_type_snoc, length_app.
    pose proof (set_add_length (hb_sessionId hb) (sessionsCount (summary l))).
    unfold track, count_type in *. cbn [filter].
    destruct (siteType (data hb));
      cbn [totalFocusTime coinsEarned coinsSpent productiveTime
           distractingTime sessionsCount filter List.length];
      destruct (Z.ltb_spec 0 (coinsChange (data hb)));
      destruct (Z.ltb_spec (coinsChange (data hb)) 0);
      repeat split; cbn [List.length]; lia.
Qed.

(** X21. The aggregation groups by day: a day with no heartbeat gets no
    entry, and the entry of any other day is what tracking that day's
    heartbeats alone, in their order, gives; heartbeats of other days do not
    enter it. *)
Theorem groupByDate_groups_by_day (heartbeats : list Heartbeat) (key : Z) :
  (on_day key heartbeats = [] ->
   lookup_day key (groupByDate heartbeats) = None)
  /\ (on_day key heartbeats <> [] ->
      lookup_day key (groupByDate heartbeats)
      = Some (summary (on_day key heartbeats)))
  /\ forall others,
       on_day key others = [] ->
       lookup_day key (groupByDate (heartbeats ++ others))
       = lookup_day key (groupByDate heartbeats).
Proof.
  split; [|split].
  - intros H. now rewrite groupByDate_lookup, H.
  - intros H. rewrite groupByDate_lookup.
    destruct (on_day key heartbeats); [contradiction | reflexivity].
  - intros others H. rewrite !groupByDate_lookup.
    unfold on_day in *. now rewrite filter_app, H, app_nil_r.
Qed.

(** X22. In every day's entry, [coinsEarned - coinsSpent] is the sum of
    the day's [coinsChange] fields and neither is negative;
    [totalFocusTime] equals [productiveTime], which is 5 seconds per
    productive heartbeat of the day, as [distractingTime] is 5 seconds per
    distracting one; and there are at most as many sessions as heartbeats. *)
Theorem day_entry_totals (heartbeats : list Heartbeat) (key : Z)
    (d : DayData) :
  lookup_day key (groupByDate heartbeats) = Some d ->
  let today := on_day key heartbeats in
  coinsEarned d - coinsSpent d = totalCoinsChange today
  /\ 0 <= coinsEarned d
  /\ 0 <= coinsSpent d
  /\ totalFocusTime d = productiveTime d
  /\ productiveTime d = 5 * count_type productive today
  /\ distractingTime d = 5 * count_type distracting today
  /\ (List.length (sessionsCount d) <= List.length today)%nat.
Proof.
  intros H today. rewrite groupByDate_lookup in H. fold today in H.
  destruct today eqn:E; [discriminate|]. injection H as <-.
  apply summary_totals.
Qed.

Lemma day_entry_totals_witness :
  let hbs :=
    [mkHeartbeat (mkData 1000 "github.com" productive focus 9 7 "u")
       (Some "a"%string);
     mkHeartbeat (mkData 6000 "youtube.com" distracting distract (-4) 7 "u")
       (Some "a"%string);
     mkHeartbeat (mkData 86400000 "github.com" productive focus 3 7 "u")
       (Some "b"%string)] in
  let d := mkDay 5 9 4 5 5 [Some "a"%string] in
  lookup_day 0 (groupByDate hbs) = Some d
  /\ coinsEarned d - coinsSpent d = totalCoinsChange (on_day 0 hbs)
  /\ productiveTime d = 5 * count_type productive (on_day 0 hbs).
Proof.
  intros hbs d.
  assert (H : lookup_day 0 (groupByDate hbs) = Some d) by reflexivity.
  destruct (day_entry_totals hbs 0 d H) as (H1 & _ & _ & _ & H5 & _).
  split; [exact H|]. split; [exact H1 | exact H5].
Defined.

Lemma summary_undercount (l : list Heartbeat) :
  Forall well_formed l ->
  3 * productiveTime (summary l) <= 5 * coinsEarned (summary l)
  /\ 4 * distractingTime (summary l) <= 5 * coinsSpent (summary l).
Proof.
  induction l as [|hb l IH] using rev_ind; intros Hwf.
  - cbn. lia.
  - apply Forall_app in Hwf as [Hl Hhb]. specialize (IH Hl).
    inversion Hhb as [|? ? Hw _]; subst.
    rewrite summary_snoc. unfold track.
    destruct Hw as [(Hty & _ & n & Hn & Hc)|(Hty & _ & n & Hn & Hc)];
      rewrite Hty, Hc;
      cbn [coinsEarned coinsSpent productiveTime distractingTime];
      destruct (Z.ltb_spec 0 (n * 3)); destruct (Z.ltb_spec 0 (n * -4));
      destruct (Z.ltb_spec (n * -4) 0); lia.
Qed.

(** X23. Aggregated time undercounts paid time: for heartbeats of the
    shape the engine buffers, a day's [productiveTime] is at most 5 seconds
    per 3 coins earned and its [distractingTime] at most 5 seconds per 4
    coins spent, because a heartbeat counts for one interval however many
    intervals its [coinsChange] was paid for. *)
Theorem day_time_undercounts_paid_time (heartbeats : list Heartbeat) (key : Z)
    (d : DayData) :
  Forall well_formed heartbeats ->
  lookup_day key (groupByDate heartbeats) = Some d ->
  3 * productiveTime d <= 5 * coinsEarned d
  /\ 4 * distractingTime d <= 5 * coinsSpent d.
Proof.
  intros Hwf H. rewrite groupByDate_lookup in H.
  destruct (on_day key heartbeats) eqn:E; [discriminate|].
  injection H as <-. rewrite <- E. apply summary_undercount.
  apply Forall_forall. intros hb Hin. unfold on_day in Hin.
  apply filter_In in Hin as [Hin _].
  rewrite Forall_forall in Hwf. now apply Hwf.
Qed.

Lemma day_time_undercounts_paid_time_witness :
  let w := visiting "https://github.com/" 15000 NetworkError in
  let hbs := heartbeatBuffer (eng (fst (updateCoins w (monitoring 10)))) in
  let d := mkDay 5 9 0 5 0 [Some "session-1"%string] in
  Forall well_formed hbs
  /\ lookup_day 0 (groupByDate hbs) = Some d
  /\ 3 * productiveTime d <= 5 * coinsEarned d.
Proof.
  intros w hbs d.
  assert (Hwf : Forall well_formed hbs).
  { constructor; [|constructor]. left. cbn. repeat split.
    exists 3. split; [lia | reflexivity]. }
  assert (H : lookup_day 0 (groupByDate hbs) = Some d) by reflexivity.
  split; [exact Hwf|]. split; [exact H|].
  exact (proj1 (day_time_undercounts_paid_time hbs 0 d Hwf H)).
Defined.

(** ** The streak *)

Lemma insert_stat_In (x a : DailyStat) (l : list DailyStat) :
  In x (insert_stat a l) <-> x = a \/ In x l.
Proof.
  induction l as [|y l IH]; cbn [insert_stat].
  - cbn. intuition.
  - destruct (date y <=? date a); cbn [In] in *; [intuition|].
    rewrite IH. intuition.
Qed.

Lemma sort_stats_In (x : DailyStat) (l : list DailyStat) :
  In x (sort_stats l) <-> In x l.
Proof.
  induction l as [|a l IH]; cbn [sort_stats fold_right]; [reflexivity|].
  fold (sort_stats l). rewrite insert_stat_In, IH. cbn. intuition.
Qed.

Lemma insert_stat_sorted (a : DailyStat) (l : list DailyStat) :
  StronglySorted later_first l -> StronglySorted later_first (insert_stat a l).
Proof.
  induction l as [|y l IH]; intros Hs; cbn [insert_stat].
  - repeat constructor.
  - apply StronglySorted_inv in Hs as [Hs Hy].
    destruct (Z.leb_spec (date y) (date a)) as [Hle|Hlt].
    + constructor; [now constructor|].
      constructor; [exact Hle|].
      rewrite Forall_forall in *. intros z Hz.
      specialize (Hy z Hz). unfold later_first in *. lia.
    + constructor; [now apply IH|].
      rewrite Forall_forall in *. intros z Hz.
      apply insert_stat_In in Hz as [->|Hz]; [|now apply Hy].
      unfold later_first. lia.
Qed.

Lemma sort_stats_sorted (l : list DailyStat) :
  StronglySorted later_first (sort_stats l).
Proof.
  induction l as [|a l IH]; cbn [sort_stats fold_right]; [constructor|].
  now apply insert_stat_sorted.
Qed.

Lemma filter_sorted (f : DailyStat -> bool) (l : list DailyStat) :
  StronglySorted later_first l -> StronglySorted later_first (filter f l).
Proof.
  induction l as [|a l IH]; intros Hs; cbn [filter]; [constructor|].
  apply StronglySorted_inv in Hs as [Hs Ha].
  destruct (f a); [|now apply IH].
  constructor; [now apply IH|].
  rewrite Forall_forall in *. intros z Hz.
  apply filter_In in Hz as [Hz _]. now apply Ha.
Qed.

Lemma dayDiff_eq (c d : Z) :
  JS.floor_div (c - d * 86400000) (1000 * 60 * 60 * 24)
  = JS.floor_div c 86400000 - d.
Proof.
  unfold JS.floor_div. change (1000 * 60 * 60 * 24) with 86400000.
  replace (c - d * 86400000) with (c + (- d) * 86400000) by lia.
  rewrite Z.div_add by discriminate. lia.
Qed.

Lemma streak_loop_bounds (cal : Calendar) (l : list DailyStat) (k c : Z) :
  k <= streak_loop cal l k c <= k + Z.of_nat (List.length l).
Proof.
  revert k c. induction l as [|x l IH]; intros k c; cbn [streak_loop].
  - cbn. lia.
  - destruct (_ =? k).
    + specialize (IH (k + 1) (day_before cal c)). cbn [List.length]. lia.
    + cbn [List.length]. lia.
Qed.

Lemma focused_In (x : DailyStat) (l : list DailyStat) :
  In x (filter (fun day => 0 <? focusTime day) (sort_stats l))
  <-> In x l /\ 0 < focusTime x.
Proof. now rewrite filter_In, sort_stats_In, Z.ltb_lt. Qed.

(** X24. The streak is never negative and never more than the number of
    stored days with focus time; without such a day it is 0. *)
Theorem calculateStreak_bounds (cal : Calendar) (dailyStats : list DailyStat) :
  let focused := filter (fun day => 0 <? focusTime day) dailyStats in
  0 <= calculateStreak cal dailyStats <= Z.of_nat (List.length focused)
  /\ (focused = [] -> calculateStreak cal dailyStats = 0).
Proof.
  intros focused. unfold calculateStreak.
  set (sorted := filter (fun day => 0 <? focusTime day) (sort_stats dailyStats)).
  assert (Hlen : List.length sorted = List.length focused).
  { subst sorted focused. induction dailyStats as [|a l IH]; [reflexivity|].
    cbn [sort_stats fold_right filter]. fold (sort_stats l).
    assert (forall s, List.length
                        (filter (fun day => 0 <? focusTime day)
                           (insert_stat a s))
                      = List.length
                          (filter (fun day => 0 <? focusTime day) (a :: s)))
      as Hins.
    { induction s as [|y s IHs]; [reflexivity|]. cbn [insert_stat].
      destruct (date y <=? date a); [reflexivity|].
      cbn [filter] in *.
      destruct (0 <? focusTime y), (0 <? focusTime a);
        cbn [List.length] in *; lia. }
    rewrite Hins. cbn [filter].
    destruct (0 <? focusTime a); cbn [List.length]; now rewrite IH. }
  split.
  - pose proof (streak_loop_bounds cal sorted 0 (local_midnight cal)) as Hb.
    rewrite Hlen in Hb. destruct sorted; [cbn in *; lia | exact Hb].
  - intros Hf. rewrite Hf in Hlen. now destruct sorted.
Qed.

(** X25. Without focus time today there is no streak: when no stored day
    with focus time is the day on which the local midnight falls (in UTC
    days), [calculateStreak] is 0, whatever the earlier days hold. *)
Theorem calculateStreak_needs_today (cal : Calendar)
    (dailyStats : list DailyStat) :
  (forall day, In day dailyStats -> 0 < focusTime day ->
               date day <> JS.floor_div (local_midnight cal) 86400000) ->
  calculateStreak cal dailyStats = 0.
Proof.
  intros H. unfold calculateStreak.
  destruct (filter _ (sort_stats dailyStats)) as [|x rest] eqn:E;
    [reflexivity|].
  assert (Hx : In x dailyStats /\ 0 < focusTime x)
    by (apply focused_In; rewrite E; now left).
  cbn [streak_loop]. rewrite dayDiff_eq.
  destruct (Z.eqb_spec (JS.floor_div (local_midnight cal) 86400000 - date x) 0)
    as [Heq|]; [|reflexivity].
  exfalso. apply (H x); [apply Hx | apply Hx | lia].
Qed.

Lemma calculateStreak_needs_today_witness :
  let cal := mkCalendar (20000 * 86400000) (fun c => c - 86400000) in
  let stats := [mkStat 19999 3600; mkStat 19998 3600; mkStat 19997 3600] in
  JS.floor_div (local_midnight cal) 86400000 = 20000
  /\ calculateStreak cal stats = 0.
Proof.
  intros cal stats. split; [reflexivity|].
  apply (calculateStreak_needs_today cal stats).
  intros day Hin _ Heq.
  cbn in Hin. destruct Hin as [<-|[<-|[<-|[]]]]; discriminate.
Defined.

(** X26. Focus on consecutive days gives a streak of 1: when subtracting
    a day from the local midnight takes off 24 hours, and the stored days
    with focus time include today and yesterday and none later than today,
    [calculateStreak] is 1, because after counting today the loop steps the
    date back and also expects a difference of one day more. *)
Theorem calculateStreak_consecutive_days (cal : Calendar)
    (dailyStats : list DailyStat) (today yesterday : DailyStat) :
  day_before cal (local_midnight cal) = local_midnight cal - 86400000 ->
  In today dailyStats -> 0 < focusTime today ->
  date today = JS.floor_div (local_midnight cal) 86400000 ->
  In yesterday dailyStats -> 0 < focusTime yesterday ->
  date yesterday = date today - 1 ->
  (forall day, In day dailyStats -> 0 < focusTime day ->
               date day <= date today) ->
  calculateStreak cal dailyStats = 1.
Proof.
  intros Hprev Ht Hft Hdt Hy Hfy Hdy Hmax. unfold calculateStreak.
  pose proof (filter_sorted (fun day => 0 <? focusTime day) _
                (sort_stats_sorted dailyStats)) as Hs.
  assert (Hint : In today (filter (fun day => 0 <? focusTime day)
                             (sort_stats dailyStats)))
    by (apply focused_In; now split).
  assert (Hiny : In yesterday (filter (fun day => 0 <? focusTime day)
                                 (sort_stats dailyStats)))
    by (apply focused_In; now split).
  assert (Hle : forall day,
             In day (filter (fun day => 0 <? focusTime day)
                       (sort_stats dailyStats)) -> date day <= date today)
    by (intros day Hin; apply focused_In in Hin; now apply Hmax).
  destruct (filter _ (sort_stats dailyStats)) as [|x rest]; [contradiction|].
  apply StronglySorted_inv in Hs as [Hs Hx]. rewrite Forall_forall in Hx.
  assert (Hdx : date x = date today).
  { pose proof (Hle x (or_introl eq_refl)).
    destruct Hint as [->|Hin]; [reflexivity|].
    specialize (Hx today Hin). unfold later_first in Hx. lia. }
  assert (Hyr : In yesterday rest).
  { destruct Hiny as [<-|Hin]; [lia | exact Hin]. }
  cbn [streak_loop]. rewrite dayDiff_eq, Hdx, Hdt, Z.sub_diag.
  cbn [Z.eqb Z.add]. rewrite Hprev.
  destruct rest as [|y rest']; [contradiction|].
  apply StronglySorted_inv in Hs as [_ Hyy]. rewrite Forall_forall in Hyy.
  assert (Hy1 : date yesterday <= date y).
  { destruct Hyr as [->|Hin]; [lia|].
    specialize (Hyy yesterday Hin). unfold later_first in Hyy. lia. }
  assert (Hy2 : date y <= date today)
    by (specialize (Hx y (or_introl eq_refl)); unfold later_first in Hx; lia).
  cbn [streak_loop]. rewrite dayDiff_eq.
  replace (local_midnight cal - 86400000)
    with (local_midnight cal + (-1) * 86400000) by lia.
  unfold JS.floor_div in *. rewrite Z.div_add by discriminate.
  destruct (Z.eqb_spec (local_midnight cal / 86400000 + -1 - date y) 1);
    [lia | reflexivity].
Qed.

Lemma calculateStreak_consecutive_days_witness :
  let cal := mkCalendar (20000 * 86400000 + 18000000)
               (fun c => c - 86400000) in
  let stats :=
    [mkStat 19998 1800; mkStat 20000 3600; mkStat 19999 7200;
     mkStat 19997 600] in
  date (mkStat 20000 3600) = JS.floor_div (local_midnight cal) 86400000
  /\ calculateStreak cal stats = 1.
Proof.
  intros cal stats. split; [reflexivity|].
  apply (calculateStreak_consecutive_days cal stats
           (mkStat 20000 3600) (mkStat 19999 7200)); try reflexivity.
  - cbn. tauto.
  - cbn. tauto.
  - intros day Hin _. cbn in Hin.
    destruct Hin as [<-|[<-|[<-|[<-|[]]]]]; cbn; lia.
Defined.

(** ** Flushes in flight *)

(** The two halves of [syncHeartbeats] make up the whole. *)
Lemma syncHeartbeats_withheld (e : Engine) :
  syncHeartbeats NetworkError e = (e, sendHeartbeats e).
Proof.
  unfold syncHeartbeats, sendHeartbeats.
  destruct (heartbeatBuffer e); reflexivity.
Qed.

Lemma syncHeartbeats_split (r : ApiResult) (e : Engine) :
  syncHeartbeats r e
  = (match sendHeartbeats e with
     | [] => e
     | _ :: _ => receiveAnswer r e
     end, sendHeartbeats e).
Proof.
  unfold syncHeartbeats, sendHeartbeats, receiveAnswer.
  destruct (heartbeatBuffer e); reflexivity.
Qed.


Lemma handler_ok_frame (s1 s2 s s' : State) (e e' : list Event) :
  handler_ok s1 s2 e ->
  maxBufferSize (eng s1) = maxBufferSize (eng s) ->
  heartbeatBuffer (eng s1) = heartbeatBuffer (eng s) ->
  focusCoins (store s1) = focusCoins (store s) ->
  maxBufferSize (eng s') = maxBufferSize (eng s2) ->
  heartbeatBuffer (eng s') = heartbeatBuffer (eng s2) ->
  focusCoins (store s') = focusCoins (store s2) ->
  posted e' = posted e ->
  announced_change e' = announced_change e ->
  handler_ok s s' e'.
Proof.
  unfold handler_ok, buffer_length, balance.
  intros (H1 & (added & H2 & H2') & H3 & H4 & H5 & H6) M1 B1 F1 M2 B2 F2 P A.
  rewrite M2, B2, F2, P, A, <- M1, <- B1, <- F1.
  split; [exact H1|]. split; [now exists added|].
  split; [exact H3|]. split; [exact H4|]. split; [exact H5 | exact H6].
Qed.

Lemma handler_ok_idle (s : State) (e : list Event) :
  posted e = [] -> announced_change e = 0 -> handler_ok s s e.
Proof.
  intros P A. unfold handler_ok. rewrite P, A.
  split; [reflexivity|].
  split; [exists []; split; [now rewrite app_nil_r | cbn; lia]|].
  split; [now left|]. split; [auto|]. split; lia.
Qed.

Lemma updateCoins_ok (w : Env) (s : State) :
  confirmed (fetch_result w) = false ->
  handler_ok s (fst (updateCoins w s)) (snd (updateCoins w s)).
Proof.
  intros Hr.
  assert (forall tab u domain ty c t ch,
             ch <= c - balance s ->
             handler_ok s (fst (commit w s tab u domain ty c t ch))
               (snd (commit w s tab u domain ty c t ch))) as Hc.
  { intros tab u domain ty c t ch Hle. rewrite commit_eq, Hr, andb_false_r.
    cbn [fst snd]. unfold handler_ok, buffer_length, balance.
    cbn [eng store heartbeatBuffer maxBufferSize focusCoins JS.or0
         set_lastUpdateTime set_heartbeatBuffer set_coins app posted
         announced_change].
    rewrite posted_app, announced_change_app, totalCoinsChange_app.
    unfold is_full.
    destruct (Z.leb_spec (maxBufferSize (eng s))
                (Z.of_nat (List.length
                   (heartbeatBuffer (eng s)
                    ++ [heartbeat_of w (eng s) tab u domain ty ch]))))
      as [Hfull|Hfree]; cbn [posted announced_change app].
    - split; [reflexivity|]. split; [eexists; split; [reflexivity|cbn; lia]|].
      split; [now right|]. split; [discriminate|].
      split; [cbn; lia | fold (balance s); lia].
    - split; [reflexivity|]. split; [eexists; split; [reflexivity|cbn; lia]|].
      split; [now left|]. split; [intros _ _; exact Hfree|].
      split; [cbn; lia | fold (balance s); lia]. }
  destruct (updateCoins_outcome w s) as [|tab u domain _ _ _
                                         |tab u domain _ Hn
                                         |tab u domain _ Hn Hpos].
  - now apply handler_ok_idle.
  - now apply handler_ok_idle.
  - apply Hc. lia.
  - apply Hc. unfold JS.max. lia.
Qed.

Lemma handleTabChange_ok (t : Z) (w : Env) (s : State) :
  confirmed (fetch_result w) = false ->
  handler_ok s (fst (handleTabChange t w s)) (snd (handleTabChange t w s)).
Proof.
  intros Hr. unfold handleTabChange.
  destruct (isSessionActive (eng s)); cbn [negb].
  - match goal with |- context [updateCoins w ?x] =>
      apply (handler_ok_frame x (fst (updateCoins w x)) s _
               (snd (updateCoins w x)) _ (updateCoins_ok w x Hr)) end;
      reflexivity.
  - now apply handler_ok_idle.
Qed.

Lemma sendHeartbeats_posted (e : Engine) :
  (posted (sendHeartbeats e) = []
   \/ posted (sendHeartbeats e) = [heartbeatBuffer e])
  /\ announced_change (sendHeartbeats e) = 0.
Proof.
  unfold sendHeartbeats. destruct (heartbeatBuffer e); cbn; auto.
Qed.

Lemma send_ok (s s' : State) :
  maxBufferSize (eng s') = maxBufferSize (eng s) ->
  heartbeatBuffer (eng s') = heartbeatBuffer (eng s) ->
  focusCoins (store s') = focusCoins (store s) ->
  handler_ok s s' (sendHeartbeats (eng s')).
Proof.
  intros M B F. destruct (sendHeartbeats_posted (eng s')) as [P A].
  unfold handler_ok, buffer_length, balance. rewrite M, B, F, A.
  split; [reflexivity|].
  split; [exists []; split; [now rewrite app_nil_r | cbn; lia]|].
  split; [now rewrite <- B|]. split; [auto|]. split; lia.
Qed.

Lemma handler_facts (o : AOp) (s : State) :
  is_answer o = false ->
  handler_ok s (fst (handler o s)) (snd (handler o s)).
Proof.
  destruct o as [w|id t w|id has_url t w| |sid t r w| |rstop|r];
    intros Ho; try discriminate; cbn [handler].
  - now apply updateCoins_ok.
  - unfold onActivated.
    match goal with |- context [handleTabChange t (withhold w) ?x] =>
      apply (handler_ok_frame x (fst (handleTabChange t (withhold w) x)) s _
               (snd (handleTabChange t (withhold w) x)) _
               (handleTabChange_ok t (withhold w) x eq_refl)) end;
      reflexivity.
  - unfold onUpdated. destruct (_ && has_url).
    + now apply handleTabChange_ok.
    + now apply handler_ok_idle.
  - now apply send_ok.
  - unfold startSession, startMonitoring.
    match goal with |- context [updateCoins (withhold w) ?x] =>
      set (s1 := x) end.
    destruct r; cbn [fst snd].
    + apply (handler_ok_frame s s s _ [] _ (handler_ok_idle s [] eq_refl eq_refl));
        reflexivity.
    + pose proof (updateCoins_ok (withhold w) s1 eq_refl) as H.
      destruct (updateCoins (withhold w) s1) as [s2 evs2]. cbn [fst snd] in *.
      apply (handler_ok_frame s1 s2 s _ evs2 _ H); reflexivity.
  - unfold stopSession_begin. cbn [fst snd]. now apply send_ok.
  - unfold stopSession_end.
    destruct rstop; cbn [fst snd].
    + now apply handler_ok_idle.
    + apply (handler_ok_frame s s s _ [] _ (handler_ok_idle s [] eq_refl eq_refl));
        reflexivity.
Qed.

Lemma astep_handler (o : AOp) (a : AState) :
  is_answer o = false ->
  astep o a
  = ({| current := fst (handler o (current a));
        pending := pending a
                   + List.length (posted (snd (handler o (current a)))) |},
     snd (handler o (current a))).
Proof.
  intros Ho. destruct o; try discriminate; unfold astep;
    now rewrite (surjective_pairing (handler _ (current a))).
Qed.

Lemma astep_answer (r : ApiResult) (a : AState) :
  astep (AAnswer r) a
  = match pending a with
    | O => (a, [])
    | S n =>
        ({| current := {| eng := receiveAnswer r (eng (current a));
                          store := store (current a) |};
            pending := n |}, [])
    end.
Proof. reflexivity. Qed.

Lemma is_answer_inv (o : AOp) :
  is_answer o = true -> exists r, o = AAnswer r.
Proof. destruct o; try discriminate. intros _. now eexists. Qed.

Lemma arun_bounded (ops : list AOp) (a : AState) (limit : Z) :
  maxBufferSize (eng (current a)) = limit ->
  buffer_length (current a) <= limit ->
  (pending a = 0%nat -> buffer_length (current a) < limit) ->
  0 < limit ->
  prompt ops a = true ->
  forallb answer_confirmed ops = true ->
  buffer_length (current (fst (arun ops a))) <= limit
  /\ (pending (fst (arun ops a)) = 0%nat ->
      buffer_length (current (fst (arun ops a))) < limit).
Proof.
  revert a. induction ops as [|o ops IH]; intros a Hm Hle Hlt Hpos Hp Hc.
  - cbn [arun fst]. now split.
  - cbn [prompt] in Hp. apply andb_true_iff in Hp as [Hnow Hp].
    cbn [forallb] in Hc. apply andb_true_iff in Hc as [Hco Hc].
    cbn [arun].
    assert (Hstep : maxBufferSize (eng (current (fst (astep o a)))) = limit
                    /\ buffer_length (current (fst (astep o a))) <= limit
                    /\ (pending (fst (astep o a)) = 0%nat ->
                        buffer_length (current (fst (astep o a))) < limit)).
    { destruct (is_answer o) eqn:Ho.
      - apply is_answer_inv in Ho as [r ->]. cbn [answer_confirmed] in Hco.
        rewrite astep_answer. destruct (pending a) as [|n]; cbn [fst].
        + repeat split; auto.
        + unfold receiveAnswer, buffer_length. rewrite Hco.
          cbn [current eng heartbeatBuffer maxBufferSize set_heartbeatBuffer
               List.length pending].
          repeat split; [exact Hm | cbn; lia | cbn; lia].
      - cbn [orb] in Hnow. apply Nat.eqb_eq in Hnow.
        rewrite astep_handler by exact Ho. cbn [fst current pending].
        destruct (handler_facts o (current a) Ho)
          as (H1 & (added & H2 & H2') & H3 & H4 & _).
        rewrite Hm in *. specialize (Hlt Hnow).
        split; [exact H1|].
        assert (Hlen : buffer_length (fst (handler o (current a)))
                       <= buffer_length (current a) + 1).
        { unfold buffer_length. rewrite H2, length_app. lia. }
        split; [lia|]. rewrite Hnow. cbn [Nat.add]. intros Hz.
        apply H4; [|exact Hlt].
        destruct (posted (snd (handler o (current a)))); [reflexivity|].
        discriminate. }
    destruct Hstep as (Hm1 & Hle1 & Hlt1).
    destruct (astep o a) as [a1 evs1]. cbn [fst] in *.
    specialize (IH a1 Hm1 Hle1 Hlt1 Hpos Hp Hc).
    destruct (arun ops a1) as [a2 evs2]. exact IH.
Qed.

(** C5, amended. The buffer is not bounded by [maxBufferSize] when flushes
    fail. When every answer to a heartbeat POST is a confirmed success and
    arrives before the next handler runs, a buffer shorter than
    [maxBufferSize] never grows beyond [maxBufferSize], and it is shorter
    than [maxBufferSize] again whenever no POST is in flight. Whatever the
    answers and their timing, a push that brings the length to
    [maxBufferSize] or beyond makes exactly one flush attempt, of the whole
    buffer, and any other push makes none. *)
Theorem buffer_bounded_while_answers_prompt (ops : list AOp) (a : AState) :
  pending a = 0%nat ->
  buffer_length (current a) < maxBufferSize (eng (current a)) ->
  prompt ops a = true ->
  forallb answer_confirmed ops = true ->
  let a' := fst (arun ops a) in
  buffer_length (current a') <= maxBufferSize (eng (current a))
  /\ (pending a' = 0%nat ->
      buffer_length (current a') < maxBufferSize (eng (current a)))
  /\ forall d r e,
       let pushed := heartbeatBuffer e ++ [mkHeartbeat d (sessionId e)] in
       snd (addHeartbeat d r e)
       = (if is_full e pushed then [PostHeartbeats (uuid e) pushed] else [])
       /\ flush_attempts (snd (addHeartbeat d r e))
          = if is_full e pushed then 1%nat else 0%nat.
Proof.
  intros Hz Hlt Hp Hc a'.
  assert (H0 : 0 <= buffer_length (current a))
    by (unfold buffer_length; lia).
  destruct (arun_bounded ops a (maxBufferSize (eng (current a))))
    as [H1 H2]; auto; try lia.
  split; [exact H1|]. split; [exact H2|].
  intros d r e pushed. split.
  - now rewrite addHeartbeat_eq.
  - apply addHeartbeat_flush_attempts.
Qed.

Lemma buffer_bounded_while_answers_prompt_witness :
  let a := {| current := monitoring 10; pending := 0 |} in
  let ops :=
    map (fun k => ATick (visiting "https://github.com/" (5000 * Z.of_nat k)
                           NetworkError))
        (seq 1 10)
    ++ [AAnswer (Json true);
        ATick (visiting "https://github.com/" 55000 NetworkError)] in
  pending a = 0%nat
  /\ buffer_length (current a) < maxBufferSize (eng (current a))
  /\ prompt ops a = true
  /\ forallb answer_confirmed ops = true
  /\ List.length (posted (snd (arun ops a))) = 1%nat
  /\ buffer_length (current (fst (arun ops a))) = 1
  /\ buffer_length (current (fst (arun ops a)))
     <= maxBufferSize (eng (current a)).
Proof.
  intros a ops.
  do 6 (split; [reflexivity|]).
  exact (proj1 (buffer_bounded_while_answers_prompt ops a
                  eq_refl eq_refl eq_refl eq_refl)).
Defined.

(** Without that timing the bound is lost even when every flush succeeds:
    eleven pushes before the first answer leave eleven records. *)
Lemma buffer_outgrows_before_answer :
  let a := {| current := monitoring 10; pending := 0 |} in
  let ops :=
    map (fun k => ATick (visiting "https://github.com/" (5000 * Z.of_nat k)
                           NetworkError))
        (seq 1 11) in
  buffer_length (current (fst (arun ops a))) = 11
  /\ pending (fst (arun ops a)) = 2%nat
  /\ maxBufferSize (eng (current (fst (arun ops a)))) = 10.
Proof. repeat split. Qed.

Lemma arun_cons (o : AOp) (ops : list AOp) (a : AState) :
  arun (o :: ops) a
  = (fst (arun ops (fst (astep o a))),
     snd (astep o a) ++ snd (arun ops (fst (astep o a)))).
Proof.
  cbn [arun]. destruct (astep o a) as [a1 evs1]. cbn [fst snd].
  now destruct (arun ops a1).
Qed.

(** X2. A heartbeat that is in the buffer at a moment when no POST is in
    flight is never dropped unsent, whenever the answers arrive: after any
    run of handlers and answers it is still in the buffer or was part of a
    batch posted during the run. (A record pushed while a POST is in flight
    has no such guarantee: see [record_pushed_in_flight_is_wiped].) *)
Theorem heartbeats_leave_only_by_post (ops : list AOp) (a : AState)
    (hb : Heartbeat) :
  pending a = 0%nat ->
  In hb (heartbeatBuffer (eng (current a))) ->
  In hb (heartbeatBuffer (eng (current (fst (arun ops a)))))
  \/ exists batch, In batch (posted (snd (arun ops a))) /\ In hb batch.
Proof.
  revert a. induction ops as [|o ops IH]; intros a Hz Hin.
  - now left.
  - rewrite arun_cons. cbn [fst snd]. destruct (is_answer o) eqn:Ho.
    + apply is_answer_inv in Ho as [r ->]. rewrite astep_answer, Hz.
      cbn [fst snd app]. now apply IH.
    + rewrite astep_handler by exact Ho. cbn [fst snd].
      destruct (handler_facts o (current a) Ho)
        as (_ & (added & H2 & _) & H3 & _).
      assert (Hin' : In hb (heartbeatBuffer
                              (eng (fst (handler o (current a))))))
        by (rewrite H2; apply in_or_app; now left).
      destruct H3 as [H3|H3].
      * match goal with |- context [arun ops ?x] =>
          destruct (IH x) as [Hl|(batch & Hb & Hl)] end.
        -- cbn [pending]. now rewrite Hz, H3.
        -- exact Hin'.
        -- now left.
        -- right. exists batch. split; [|exact Hl].
           rewrite posted_app. apply in_or_app. now right.
      * right. exists (heartbeatBuffer (eng (fst (handler o (current a))))).
        split; [|exact Hin'].
        rewrite posted_app, H3. now left.
Qed.

Lemma heartbeats_leave_only_by_post_witness :
  let w := visiting "https://github.com/" 15000 NetworkError in
  let a := fst (astep (ATick w) {| current := monitoring 10; pending := 0 |}) in
  let hb :=
    mkHeartbeat (mkData 15000 "github.com" productive focus 9 7
                   "https://github.com/")
      (Some "session-1"%string) in
  let ops :=
    [APeriodicSync;
     ATick (visiting "https://github.com/" 20000 NetworkError);
     AAnswer (Json true)] in
  pending a = 0%nat
  /\ In hb (heartbeatBuffer (eng (current a)))
  /\ heartbeatBuffer (eng (current (fst (arun ops a)))) = []
  /\ (In hb (heartbeatBuffer (eng (current (fst (arun ops a)))))
      \/ exists batch, In batch (posted (snd (arun ops a))) /\ In hb batch).
Proof.
  intros w a hb ops.
  assert (H : In hb (heartbeatBuffer (eng (current a))))
    by (left; reflexivity).
  split; [reflexivity|]. split; [exact H|]. split; [reflexivity|].
  exact (heartbeats_leave_only_by_post ops a hb eq_refl H).
Defined.

(** A record pushed while a POST is in flight is wiped by the confirmed
    answer although no batch posted holds it: the periodic sync posts the
    one record buffered, a tick pushes a second one, the answer arrives. *)
Lemma record_pushed_in_flight_is_wiped :
  let w := visiting "https://github.com/" 15000 NetworkError in
  let a := fst (astep (ATick w) {| current := monitoring 10; pending := 0 |}) in
  let late :=
    mkHeartbeat (mkData 20000 "github.com" productive focus 3 7
                   "https://github.com/")
      (Some "session-1"%string) in
  let before_answer :=
    [APeriodicSync;
     ATick (visiting "https://github.com/" 20000 NetworkError)] in
  let ops := before_answer ++ [AAnswer (Json true)] in
  In late (heartbeatBuffer (eng (current (fst (arun before_answer a)))))
  /\ heartbeatBuffer (eng (current (fst (arun ops a)))) = []
  /\ forall batch, In batch (posted (snd (arun ops a))) -> ~ In late batch.
Proof.
  intros w a late before_answer ops.
  split; [right; left; reflexivity|]. split; [reflexivity|].
  intros batch Hb Hin. cbn in Hb. destruct Hb as [<-|[]].
  cbn in Hin. destruct Hin as [Heq|[]]. discriminate.
Qed.





(** ** The handlers of the first part are the prompt runs *)

Lemma updateCoins_answered (w : Env) (s : State) :
  updateCoins w s = answered (fetch_result w) (updateCoins (withhold w) s).
Proof.
  unfold updateCoins.
  change (observe (withhold w) (eng s)) with (observe w (eng s)).
  change (intervalsElapsed (withhold w) (eng s))
    with (intervalsElapsed w (eng s)).
  destruct (negb (isSessionActive (eng s))); [reflexivity|].
  destruct (observe w (eng s)) as [[[[tab u] domain] ty]|]; [|reflexivity].
  assert (forall c t ch,
             commit w s tab u domain ty c t ch
             = answered (fetch_result w)
                 (commit (withhold w) s tab u domain ty c t ch)) as Hc.
  { intros c t ch. rewrite !commit_eq. unfold answered, receiveAnswer.
    cbn [fst snd app posted eng store fetch_result withhold].
    rewrite posted_app.
    change (heartbeat_of (withhold w) (eng s) tab u domain ty ch)
      with (heartbeat_of w (eng s) tab u domain ty ch).
    change (date_now (withhold w)) with (date_now w).
    destruct (is_full _ _); cbn [posted app andb];
      [|reflexivity].
    destruct (confirmed (fetch_result w)); reflexivity. }
  destruct ty; try reflexivity;
    destruct (0 <? intervalsElapsed w (eng s)); try reflexivity;
    try apply Hc.
  destruct (0 <? balance s); [apply Hc | reflexivity].
Qed.

Lemma prompt_pair (o : AOp) (r : ApiResult) (s : State) :
  is_answer o = false ->
  arun [o; AAnswer r] {| current := s; pending := 0 |}
  = ({| current := fst (answered r (handler o s)); pending := 0 |},
     snd (handler o s)).
Proof.
  intros Ho. rewrite arun_cons, astep_handler by exact Ho.
  cbn [fst snd current pending Nat.add]. rewrite arun_cons, astep_answer.
  cbn [pending current]. unfold answered. cbn [fst snd].
  destruct (handler_facts o s Ho) as (_ & _ & [H3|H3] & _); rewrite H3;
    cbn [List.length arun fst snd]; now rewrite !app_nil_r.
Qed.

Lemma handleTabChange_answered (t : Z) (w : Env) (s : State) :
  handleTabChange t w s
  = answered (fetch_result w) (handleTabChange t (withhold w) s).
Proof.
  unfold handleTabChange. destruct (isSessionActive (eng s)); cbn [negb].
  - apply updateCoins_answered.
  - reflexivity.
Qed.

Lemma syncHeartbeats_answered (r : ApiResult) (e : Engine) (st : Storage) :
  (let '(e1, evs) := syncHeartbeats r e in
   ({| eng := e1; store := st |}, evs))
  = answered r ({| eng := e; store := st |}, sendHeartbeats e).
Proof.
  rewrite syncHeartbeats_split. unfold answered, sendHeartbeats.
  cbn [fst snd]. destruct (heartbeatBuffer e); reflexivity.
Qed.

(** A handler of the first part does what its handler and the answer
    arriving at once do together. *)
Lemma step_is_prompt (o : Op) (s : State) :
  arun (schedule o) {| current := s; pending := 0 |}
  = ({| current := fst (step o s); pending := 0 |}, snd (step o s)).
Proof.
  destruct s as [e st].
  destruct o as [w|id t w|id has_url t w|r|sid t r w|rsync rstop];
    cbn [schedule step].
  - rewrite prompt_pair by reflexivity. cbn [handler].
    now rewrite (updateCoins_answered w).
  - rewrite prompt_pair by reflexivity. cbn [handler]. unfold onActivated.
    now rewrite (handleTabChange_answered t w).
  - rewrite prompt_pair by reflexivity. cbn [handler]. unfold onUpdated.
    destruct (_ && has_url); [|reflexivity].
    now rewrite (handleTabChange_answered t w).
  - rewrite prompt_pair by reflexivity. cbn [handler eng store].
    now rewrite syncHeartbeats_answered.
  - rewrite prompt_pair by reflexivity. cbn [handler].
    unfold startSession, startMonitoring.
    match goal with |- context [updateCoins w ?x] => set (s1 := x) end.
    destruct r; [reflexivity|].
    rewrite (updateCoins_answered w s1). unfold answered.
    destruct (updateCoins (withhold w) s1) as [s2 evs2].
    cbn [fst snd app posted]. unfold receiveAnswer.
    destruct (posted evs2); [reflexivity|].
    cbn [eng store]. now destruct (confirmed (fetch_result w)).
  - rewrite arun_cons, astep_handler by reflexivity.
    cbn [handler fst snd current pending Nat.add].
    unfold stopSession, stopSession_begin. cbn [eng store fst snd].
    match goal with |- context [syncHeartbeats rsync ?x] => set (e1 := x) end.
    rewrite syncHeartbeats_split. rewrite arun_cons, astep_answer.
    cbn [pending current]. unfold sendHeartbeats.
    destruct (heartbeatBuffer e1) eqn:Hbuf;
      cbn [posted List.length fst snd];
      rewrite arun_cons, astep_handler by reflexivity;
      cbn [handler fst snd current pending arun Nat.add posted];
      unfold stopSession_end, receiveAnswer;
      destruct rstop, (confirmed rsync); cbn [fst snd posted List.length app];
      rewrite ?app_nil_r; reflexivity.
Qed.

Lemma arun_app (ops1 ops2 : list AOp) (a : AState) :
  arun (ops1 ++ ops2) a
  = (fst (arun ops2 (fst (arun ops1 a))),
     snd (arun ops1 a) ++ snd (arun ops2 (fst (arun ops1 a)))).
Proof.
  revert a. induction ops1 as [|o ops1 IH]; intros a.
  - cbn [app arun fst snd]. now destruct (arun ops2 a).
  - cbn [app]. rewrite !arun_cons, IH. cbn [fst snd].
    now rewrite app_assoc.
Qed.

(** The runs of the first part are the runs in which every answer arrives
    before the next handler. *)
Lemma run_is_prompt (ops : list Op) (s : State) :
  arun (flat_map schedule ops) {| current := s; pending := 0 |}
  = ({| current := fst (run ops s); pending := 0 |}, snd (run ops s)).
Proof.
  revert s. induction ops as [|o ops IH]; intros s; [reflexivity|].
  cbn [flat_map run]. rewrite arun_app, step_is_prompt. cbn [fst snd].
  rewrite IH. destruct (step o s) as [s1 evs1]. cbn [fst snd].
  now destruct (run ops s1).
Qed.

Lemma prompt_app (ops1 ops2 : list AOp) (a : AState) :
  prompt (ops1 ++ ops2) a
  = prompt ops1 a && prompt ops2 (fst (arun ops1 a)).
Proof.
  revert a. induction ops1 as [|o ops1 IH]; intros a; [reflexivity|].
  cbn [app prompt]. rewrite IH, arun_cons. cbn [fst].
  now rewrite andb_assoc.
Qed.

Lemma schedule_is_prompt (ops : list Op) (s : State) :
  prompt (flat_map schedule ops) {| current := s; pending := 0 |} = true.
Proof.
  revert s. induction ops as [|o ops IH]; intros s; [reflexivity|].
  cbn [flat_map]. rewrite prompt_app, step_is_prompt. cbn [fst].
  rewrite IH, andb_true_r.
  destruct o as [w|id t w|id has_url t w|r|sid t r w|rsync rstop];
    try reflexivity.
  cbn [schedule prompt].
  rewrite (astep_handler AStopBegin) by reflexivity.
  cbn [fst current pending Nat.add is_answer orb Nat.eqb andb].
  rewrite astep_answer.
  cbn [pending handler stopSession_begin snd]. unfold sendHeartbeats.
  now destruct (heartbeatBuffer _).
Qed.
